(** * DBSBM master service manager: a shallow embedding

    The development follows [master_service_manager.py].  The class
    [MasterServiceManager] owns a dictionary of service records and drives
    child processes through [subprocess], [psutil], the clock and the disk.

    - The service dictionaries are records; [self.services] is an
      insertion-ordered association list (Python dictionaries iterate in
      insertion order, and the manager never adds or removes a key).
    - Everything outside the interpreter (process table, file system, clock,
      scheduler, disk) is a [World] value that the operations read and
      update.  What a freshly launched child does during the five seconds
      [start_service] waits for it is an answer of the world as well.
    - Logging, sleeping and process calls are recorded, in order, in a trace
      of [event]s.
    - The [try]/[except] blocks of the source are kept as explicit branches
      on the answers of the world that stand for a raised exception. *)

From Stdlib Require Import ZArith String List Bool Arith Lia.

Import ListNotations.

Open Scope string_scope.

Open Scope Z_scope.

(** ** Dates *)

(** A [datetime.datetime] value: calendar date and the time within the day
    (hour, minute, second and microsecond folded into one number). *)
Record datetime := {
  year : Z;
  month : Z;
  day : Z;
  time_of_day : Z
}.

(** The calendar of Python's [datetime] module (proleptic Gregorian). *)
Definition is_leap (y : Z) : bool :=
  (y mod 4 =? 0) && (negb (y mod 100 =? 0) || (y mod 400 =? 0)).

Definition days_in_month (y m : Z) : Z :=
  if m =? 2 then (if is_leap y then 29 else 28)
  else if (m =? 4) || (m =? 6) || (m =? 9) || (m =? 11) then 30
  else 31.

Definition days_before_year (y : Z) : Z :=
  let y1 := y - 1 in y1 * 365 + y1 / 4 - y1 / 100 + y1 / 400.

Fixpoint days_before_month_aux (y : Z) (k : nat) : Z :=
  match k with
  | O => 0
  | S k' => days_before_month_aux y k' + days_in_month y (Z.of_nat k)
  end.

Definition days_before_month (y m : Z) : Z :=
  days_before_month_aux y (Z.to_nat (m - 1)).

Definition toordinal (d : datetime) : Z :=
  days_before_year (year d) + days_before_month (year d) (month d) + day d.

(** [date.weekday()]: Monday is 0 and Sunday is 6. *)
Definition weekday (d : datetime) : Z := (toordinal d + 6) mod 7.

(** [d.replace(day=n)]. *)
Definition replace_day (d : datetime) (n : Z) : datetime :=
  {| year := year d; month := month d; day := n; time_of_day := time_of_day d |}.

Definition next_day (d : datetime) : datetime :=
  if day d <? days_in_month (year d) (month d) then
    {| year := year d; month := month d; day := day d + 1;
       time_of_day := time_of_day d |}
  else if month d <? 12 then
    {| year := year d; month := month d + 1; day := 1;
       time_of_day := time_of_day d |}
  else
    {| year := year d + 1; month := 1; day := 1;
       time_of_day := time_of_day d |}.

(** [d + timedelta(days=k)] for a non-negative number of days. *)
Definition add_days (d : datetime) (k : nat) : datetime :=
  Nat.iter k next_day d.

(** [a.date() == b.date()]. *)
Definition same_date (a b : datetime) : bool :=
  (year a =? year b) && (month a =? month b) && (day a =? day b).

(** ** Service records *)

(** The four strings the manager ever stores under ["status"]. *)
Inductive Status := stopped | running | error | died.

Definition status_str (s : Status) : string :=
  match s with
  | stopped => "stopped"
  | running => "running"
  | error => "error"
  | died => "died"
  end.

Definition status_eqb (a b : Status) : bool :=
  match a, b with
  | stopped, stopped | running, running | error, error | died, died => true
  | _, _ => false
  end.

(** A [subprocess.Popen] object.  What [poll()] answers is a matter of the
    operating system, so the object only carries the identity of its child. *)
Record Popen := { popen_pid : Z }.

(** One entry of [self.services].  The two counters start at 0 and are only
    ever incremented or reset to 0, hence natural numbers.  The two time
    stamps hold [datetime.now().isoformat()]; the record keeps the
    [datetime] that was formatted. *)
Record Service := {
  name : string;
  script : string;
  working_dir : string;
  python_path : string;
  process : option Popen;
  pid : option Z;
  status : Status;
  restart_count : nat;
  last_restart : option datetime;
  last_health_check : option datetime;
  consecutive_failures : nat
}.

Definition set_process (v : option Popen) (s : Service) : Service :=
  {| name := name s; script := script s; working_dir := working_dir s;
     python_path := python_path s; process := v; pid := pid s;
     status := status s; restart_count := restart_count s;
     last_restart := last_restart s;
     last_health_check := last_health_check s;
     consecutive_failures := consecutive_failures s |}.

Definition set_pid (v : option Z) (s : Service) : Service :=
  {| name := name s; script := script s; working_dir := working_dir s;
     python_path := python_path s; process := process s; pid := v;
     status := status s; restart_count := restart_count s;
     last_restart := last_restart s;
     last_health_check := last_health_check s;
     consecutive_failures := consecutive_failures s |}.

Definition set_status (v : Status) (s : Service) : Service :=
  {| name := name s; script := script s; working_dir := working_dir s;
     python_path := python_path s; process := process s; pid := pid s;
     status := v; restart_count := restart_count s;
     last_restart := last_restart s;
     last_health_check := last_health_check s;
     consecutive_failures := consecutive_failures s |}.

Definition set_restart_count (v : nat) (s : Service) : Service :=
  {| name := name s; script := script s; working_dir := working_dir s;
     python_path := python_path s; process := process s; pid := pid s;
     status := status s; restart_count := v;
     last_restart := last_restart s;
     last_health_check := last_health_check s;
     consecutive_failures := consecutive_failures s |}.

Definition set_last_restart (v : option datetime) (s : Service) : Service :=
  {| name := name s; script := script s; working_dir := working_dir s;
     python_path := python_path s; process := process s; pid := pid s;
     status := status s; restart_count := restart_count s;
     last_restart := v;
     last_health_check := last_health_check s;
     consecutive_failures := consecutive_failures s |}.

Definition set_last_health_check (v : option datetime) (s : Service)
  : Service :=
  {| name := name s; script := script s; working_dir := working_dir s;
     python_path := python_path s; process := process s; pid := pid s;
     status := status s; restart_count := restart_count s;
     last_restart := last_restart s;
     last_health_check := v;
     consecutive_failures := consecutive_failures s |}.

Definition set_consecutive_failures (v : nat) (s : Service) : Service :=
  {| name := name s; script := script s; working_dir := working_dir s;
     python_path := python_path s; process := process s; pid := pid s;
     status := status s; restart_count := restart_count s;
     last_restart := last_restart s;
     last_health_check := last_health_check s;
     consecutive_failures := v |}.

(** ** The persisted status record *)

(** One value of ["services"] in the status file. *)
Record StatusEntry := {
  se_name : string;
  se_status : string;
  se_pid : option Z;
  se_restart_count : nat;
  se_last_restart : option datetime;
  se_last_health_check : option datetime;
  se_consecutive_failures : nat
}.

Record StatusData := {
  manager_pid : Z;
  last_update : datetime;
  sd_last_monthly_restart : option datetime;
  sd_services : list (string * StatusEntry)
}.

(** ** The world *)

(** What [subprocess.Popen] followed by [time.sleep(5)] and [poll()] finds. *)
Inductive spawn_outcome :=
| PopenRaises
| StillRunning (child : Z)
| Terminated (child : Z) (returncode : Z) (output : string).

(** What the graceful stop signal followed by [wait(timeout=15)] finds. *)
Inductive term_outcome :=
| SignalRaises
| ExitsInTime (returncode : Z)
| NeedsKill (returncode : Z).

Record World := {
  now : datetime;                     (* datetime.now() *)
  getpid : Z;                         (* os.getpid() *)
  path_exists : string -> bool;       (* Path.exists() *)
  poll : Z -> option Z;               (* Popen.poll() of the child *)
  pid_running : Z -> bool;            (* psutil: pid_exists and is_running *)
  launch : string -> spawn_outcome;
  graceful : Z -> term_outcome;
  job_due : bool;                     (* schedule: the Monday 03:00 job is pending *)
  disk_ok : bool;                     (* open(status_file, 'w') succeeds *)
  status_file : option StatusData
}.

(** The process table after child [p] was seen in state [st] ([None]: still
    running; [Some c]: exited with return code [c]). *)
Definition set_proc (p : Z) (st : option Z) (w : World) : World :=
  {| now := now w; getpid := getpid w; path_exists := path_exists w;
     poll := fun q => if q =? p then st else poll w q;
     pid_running := fun q =>
       if q =? p then (match st with None => true | Some _ => false end)
       else pid_running w q;
     launch := launch w; graceful := graceful w; job_due := job_due w;
     disk_ok := disk_ok w; status_file := status_file w |}.

Definition set_status_file (d : StatusData) (w : World) : World :=
  {| now := now w; getpid := getpid w; path_exists := path_exists w;
     poll := poll w; pid_running := pid_running w;
     launch := launch w; graceful := graceful w; job_due := job_due w;
     disk_ok := disk_ok w; status_file := Some d |}.

(** ** Events *)

Inductive level := INFO | WARNING | ERROR.

(** The log lines of the manager, with the values they interpolate. *)
Inductive message :=
| MsgAlreadyRunning (nm : string) (p : Z)
| MsgScriptNotFound (path : string)
| MsgStarting (nm : string)
| MsgStarted (nm : string) (p : Z)
| MsgFailedToStart (nm : string)
| MsgExitCode (code : Z)
| MsgOutput (output : string)
| MsgStartException (nm : string)
| MsgStopping (nm : string) (p : option Z)
| MsgForceKill (nm : string)
| MsgStopped (nm : string)
| MsgNotRunning (nm : string)
| MsgStopException (nm : string)
| MsgRestarting (nm : string)
| MsgDied (nm : string) (p : Z)
| MsgRestartAfter (nm : string) (wait_time failures : nat)
| MsgFailedTimes (nm : string) (failures : nat)
| MsgMonthlyRestart
| MsgStatusWriteFailed
| MsgStartingManager
| MsgSeparator
| MsgStartedCount (ok total : nat)
| MsgServicesRunning
| MsgBotOnline
| MsgWebOnline
| MsgProxyOnline
| MsgStoppingAll
| MsgAllStopped
| MsgRestartingAll.

Inductive event :=
| EvLog (l : level) (m : message)
| EvSleep (seconds : nat)
| EvPopen (script_path cwd pythonpath : string)
| EvCommunicate (child : Z)
| EvTerminate (child : Z)
| EvWait (child : Z) (timeout : option nat)
| EvKill (child : Z).

(** ** The methods, on one service record *)

(** The result of a method body: the value it returns, the service record
    and the world it leaves, and the events it caused, in order. *)
Record Res := {
  ret : bool;
  svc : Service;
  world : World;
  evs : list event
}.

(** Assignments to a record read left to right, as in the source. *)
Notation "s |> f" := (f s) (at level 45, left associativity, only parsing).

Definition incr_restart_count (s : Service) : Service :=
  set_restart_count (restart_count s + 1)%nat s.

Definition incr_consecutive_failures (s : Service) : Service :=
  set_consecutive_failures (consecutive_failures s + 1)%nat s.

(** Truth value of [service["pid"]]: [None] and [0] are false. *)
Definition truthy_pid (o : option Z) : bool :=
  match o with
  | Some p => negb (p =? 0)
  | None => false
  end.

Definition pid_or_zero (o : option Z) : Z :=
  match o with Some p => p | None => 0 end.

(** [is_process_running]: any exception of [psutil] is turned into [False],
    so the answer is a total function of the world. *)
Definition is_process_running (w : World) (p : Z) : bool := pid_running w p.

(** [Path(service["working_dir"]) / service["script"]], for the relative
    script names the manager is configured with. *)
Definition script_path (s : Service) : string :=
  working_dir s ++ "/" ++ script s.

Module Body.

(** [start_service], from the line after the dictionary lookup. *)
Definition start_service (w : World) (s : Service) : Res :=
  if truthy_pid (pid s) && is_process_running w (pid_or_zero (pid s)) then
    (* already running *)
    {| ret := true;
       svc := s |> set_status running |> set_consecutive_failures 0%nat;
       world := w;
       evs := [EvLog INFO (MsgAlreadyRunning (name s) (pid_or_zero (pid s)))] |}
  else if negb (path_exists w (script_path s)) then
    (* the script does not exist *)
    {| ret := false;
       svc := s |> set_status error |> incr_consecutive_failures;
       world := w;
       evs := [EvLog ERROR (MsgScriptNotFound (script_path s))] |}
  else
    let popen := EvPopen (script_path s) (working_dir s) (python_path s) in
    match launch w (script_path s) with
    | StillRunning p =>
        (* process.poll() is None after the five seconds *)
        {| ret := true;
           svc := s |> set_process (Some {| popen_pid := p |})
                    |> set_pid (Some p)
                    |> set_status running
                    |> incr_restart_count
                    |> set_last_restart (Some (now w))
                    |> set_consecutive_failures 0%nat;
           world := set_proc p None w;
           evs := [EvLog INFO (MsgStarting (name s)); popen; EvSleep 5;
                   EvLog INFO (MsgStarted (name s) p)] |}
    | Terminated p code output =>
        (* the process terminated within the five seconds *)
        {| ret := false;
           svc := s |> set_status error |> incr_consecutive_failures;
           world := set_proc p (Some code) w;
           evs := [EvLog INFO (MsgStarting (name s)); popen; EvSleep 5;
                   EvCommunicate p;
                   EvLog ERROR (MsgFailedToStart (name s));
                   EvLog ERROR (MsgExitCode code)]
                  ++ (if (output =? "")%string then []
                      else [EvLog ERROR (MsgOutput output)]) |}
    | PopenRaises =>
        (* except Exception *)
        {| ret := false;
           svc := s |> set_status error |> incr_consecutive_failures;
           world := w;
           evs := [EvLog INFO (MsgStarting (name s)); popen;
                   EvLog ERROR (MsgStartException (name s))] |}
    end.

(** [service["process"] and service["process"].poll() is None]. *)
Definition process_alive (w : World) (s : Service) : bool :=
  match process s with
  | Some h => match poll w (popen_pid h) with None => true | Some _ => false end
  | None => false
  end.

(** [stop_service], from the line after the dictionary lookup. *)
Definition stop_service (w : World) (s : Service) : Res :=
  match process s with
  | Some h =>
      let p := popen_pid h in
      match poll w p with
      | None =>
          let stopping := EvLog INFO (MsgStopping (name s) (pid s)) in
          let cleared := s |> set_process None |> set_pid None
                           |> set_status stopped in
          match graceful w p with
          | ExitsInTime code =>
              {| ret := true; svc := cleared;
                 world := set_proc p (Some code) w;
                 evs := [stopping; EvTerminate p; EvWait p (Some 15%nat);
                         EvLog INFO (MsgStopped (name s))] |}
          | NeedsKill code =>
              {| ret := true; svc := cleared;
                 world := set_proc p (Some code) w;
                 evs := [stopping; EvTerminate p; EvWait p (Some 15%nat);
                         EvLog WARNING (MsgForceKill (name s));
                         EvKill p; EvWait p None;
                         EvLog INFO (MsgStopped (name s))] |}
          | SignalRaises =>
              (* except Exception *)
              {| ret := false; svc := s; world := w;
                 evs := [stopping; EvTerminate p;
                         EvLog ERROR (MsgStopException (name s))] |}
          end
      | Some _ =>
          {| ret := true;
             svc := s |> set_status stopped |> set_pid None;
             world := w;
             evs := [EvLog INFO (MsgNotRunning (name s))] |}
      end
  | None =>
      {| ret := true;
         svc := s |> set_status stopped |> set_pid None;
         world := w;
         evs := [EvLog INFO (MsgNotRunning (name s))] |}
  end.

(** [check_service_health], from the line after the dictionary lookup. *)
Definition check_service_health (w : World) (s : Service) : Res :=
  let s1 := s |> set_last_health_check (Some (now w)) in
  if negb (truthy_pid (pid s1)) then
    {| ret := false; svc := s1; world := w; evs := [] |}
  else if negb (is_process_running w (pid_or_zero (pid s1))) then
    {| ret := false;
       svc := s1 |> set_status died |> set_pid None |> set_process None
                 |> incr_consecutive_failures;
       world := w;
       evs := [EvLog WARNING (MsgDied (name s1) (pid_or_zero (pid s1)))] |}
  else
    {| ret := true;
       svc := s1 |> set_status running |> set_consecutive_failures 0%nat;
       world := w; evs := [] |}.

(** [restart_service]: stop, two seconds, start; the result of the stop is
    dropped. *)
Definition restart_service (w : World) (s : Service) : Res :=
  let r1 := stop_service w s in
  let r2 := start_service (world r1) (svc r1) in
  {| ret := ret r2; svc := svc r2; world := world r2;
     evs := [EvLog INFO (MsgRestarting (name s))] ++ evs r1
            ++ [EvSleep 2] ++ evs r2 |}.

(** The body of the [for] loop of [monitor_services] for one service.
    [service_info] is the very dictionary [check_service_health] has just
    updated, so the tests read the record the health check returned. *)
Definition monitor_service (w : World) (s : Service) : Res :=
  let r := check_service_health w s in
  if ret r then r
  else
    let service_info := svc r in
    if status_eqb (status service_info) died then
      if (consecutive_failures service_info <=? 3)%nat then
        let wait_time := (2 ^ consecutive_failures service_info)%nat in
        let r2 := start_service (world r) service_info in
        {| ret := false; svc := svc r2; world := world r2;
           evs := evs r
                  ++ [EvLog INFO (MsgRestartAfter (name service_info) wait_time
                                    (consecutive_failures service_info));
                      EvSleep wait_time]
                  ++ evs r2 |}
      else
        {| ret := false; svc := service_info; world := world r;
           evs := evs r
                  ++ [EvLog ERROR (MsgFailedTimes (name service_info)
                                     (consecutive_failures service_info));
                      EvSleep 60] |}
    else r.

End Body.

(** ** The manager *)

(** The attributes of [MasterServiceManager] that the methods read or
    write, the world they run in and the trace of what they did so far. *)
Record State := {
  services : list (string * Service);
  running_flag : bool;                        (* self.running *)
  last_monthly_restart : option datetime;
  os : World;
  trace : list event
}.

Definition emit (e : list event) (st : State) : State :=
  {| services := services st; running_flag := running_flag st;
     last_monthly_restart := last_monthly_restart st;
     os := os st; trace := trace st ++ e |}.

Definition log (l : level) (m : message) (st : State) : State :=
  emit [EvLog l m] st.

Definition sleep (seconds : nat) (st : State) : State :=
  emit [EvSleep seconds] st.

Definition set_running_flag (b : bool) (st : State) : State :=
  {| services := services st; running_flag := b;
     last_monthly_restart := last_monthly_restart st;
     os := os st; trace := trace st |}.

Definition set_last_monthly_restart (d : option datetime) (st : State)
  : State :=
  {| services := services st; running_flag := running_flag st;
     last_monthly_restart := d;
     os := os st; trace := trace st |}.

Definition set_services (l : list (string * Service)) (st : State) : State :=
  {| services := l; running_flag := running_flag st;
     last_monthly_restart := last_monthly_restart st;
     os := os st; trace := trace st |}.

Definition set_os (w : World) (st : State) : State :=
  {| services := services st; running_flag := running_flag st;
     last_monthly_restart := last_monthly_restart st;
     os := w; trace := trace st |}.

(** [self.services[service_name]]. *)
Fixpoint lookup (id : string) (l : list (string * Service)) : option Service :=
  match l with
  | [] => None
  | (k, s) :: l' => if (k =? id)%string then Some s else lookup id l'
  end.

(** The dictionary after the record stored under [id] was mutated. *)
Fixpoint update (id : string) (s' : Service) (l : list (string * Service))
  : list (string * Service) :=
  match l with
  | [] => []
  | (k, s) :: l' =>
      if (k =? id)%string then (k, s') :: l' else (k, s) :: update id s' l'
  end.

(** A method called with a service name: [None] stands for the [KeyError]
    of the dictionary lookup, which precedes the [try] of every method. *)
Definition call (f : World -> Service -> Res) (id : string) (st : State)
  : option (bool * State) :=
  match lookup id (services st) with
  | None => None
  | Some s =>
      let r := f (os st) s in
      Some (ret r,
            {| services := update id (svc r) (services st);
               running_flag := running_flag st;
               last_monthly_restart := last_monthly_restart st;
               os := world r;
               trace := trace st ++ evs r |})
  end.

Definition start_service := call Body.start_service.

Definition stop_service := call Body.stop_service.

Definition restart_service := call Body.restart_service.

Definition check_service_health := call Body.check_service_health.

(** The result of a loop over the services. *)
Record Loop := {
  entries : list (string * Service);
  after : World;
  caused : list event;
  successes : nat
}.

(** [for service_name in self.services: f(service_name)]: the names come
    from the dictionary itself, so each lookup finds the entry the loop is
    at.  [successes] counts the calls that returned [True]. *)
Fixpoint for_each (f : World -> Service -> Res) (l : list (string * Service))
  (w : World) : Loop :=
  match l with
  | [] => {| entries := []; after := w; caused := []; successes := 0 |}
  | (k, s) :: l' =>
      let r := f w s in
      let rest := for_each f l' (world r) in
      {| entries := (k, svc r) :: entries rest;
         after := after rest;
         caused := evs r ++ caused rest;
         successes := ((if ret r then 1 else 0) + successes rest)%nat |}
  end.

Definition loop_state (st : State) (lp : Loop) : State :=
  {| services := entries lp; running_flag := running_flag st;
     last_monthly_restart := last_monthly_restart st;
     os := after lp; trace := trace st ++ caused lp |}.

Definition status_entry (s : Service) : StatusEntry :=
  {| se_name := name s;
     se_status := status_str (status s);
     se_pid := pid s;
     se_restart_count := restart_count s;
     se_last_restart := last_restart s;
     se_last_health_check := last_health_check s;
     se_consecutive_failures := consecutive_failures s |}.

Definition status_data (st : State) : StatusData :=
  {| manager_pid := getpid (os st);
     last_update := now (os st);
     sd_last_monthly_restart := last_monthly_restart st;
     sd_services := map (fun e => (fst e, status_entry (snd e))) (services st) |}.

(** [update_status]: the status file is overwritten, or the failure to do
    so is logged. *)
Definition update_status (st : State) : State :=
  if disk_ok (os st) then set_os (set_status_file (status_data st) (os st)) st
  else log ERROR MsgStatusWriteFailed st.

Definition status_is (id : string) (v : Status) (st : State) : bool :=
  match lookup id (services st) with
  | Some s => status_eqb (status s) v
  | None => false
  end.

Definition log_if (b : bool) (l : level) (m : message) (st : State) : State :=
  if b then log l m st else st.

Definition start_all_services (st : State) : bool * State :=
  let st1 := st |> log INFO MsgStartingManager |> log INFO MsgSeparator in
  let lp := for_each Body.start_service (services st1) (os st1) in
  let success_count := successes lp in
  let total := length (services st1) in
  let st2 := loop_state st1 lp
             |> log INFO (MsgStartedCount success_count total)
             |> update_status in
  let st3 :=
    if (0 <? success_count)%nat then
      st2 |> log INFO MsgServicesRunning
          |> log_if (status_is "discord_bot" running st2) INFO MsgBotOnline
          |> log_if (status_is "web_server" running st2) INFO MsgWebOnline
          |> log_if (status_is "web_proxy" running st2) INFO MsgProxyOnline
          |> log INFO MsgSeparator
    else st2 in
  ((success_count =? total)%nat, st3).

Definition stop_all_services (st : State) : State :=
  let st1 := st |> log INFO MsgStoppingAll in
  loop_state st1 (for_each Body.stop_service (services st1) (os st1))
  |> update_status
  |> log INFO MsgAllStopped.

Definition restart_all_services (st : State) : State :=
  snd (start_all_services
         (st |> log INFO MsgRestartingAll |> stop_all_services |> sleep 5)).

(** The first Monday of the month of [today]. *)
Definition first_monday_of (today : datetime) : datetime :=
  let first_day := replace_day today 1 in
  add_days first_day (Z.to_nat ((7 - weekday first_day) mod 7)).

(** The test on [self.last_monthly_restart] in [check_monthly_restart]. *)
Definition not_restarted_this_month (lmr : option datetime) (today : datetime)
  : bool :=
  match lmr with
  | None => true
  | Some d => negb (month d =? month today) || negb (year d =? year today)
  end.

Definition monthly_restart_due (st : State) : bool :=
  let today := now (os st) in
  same_date today (first_monday_of today)
  && not_restarted_this_month (last_monthly_restart st) today.

(** What [check_monthly_restart] does before it calls
    [restart_all_services]: the log line and the assignment. *)
Definition mark_monthly_restart (st : State) : State :=
  st |> log INFO MsgMonthlyRestart
     |> set_last_monthly_restart (Some (now (os st))).

Definition check_monthly_restart (st : State) : State :=
  if monthly_restart_due st then
    restart_all_services (mark_monthly_restart st)
  else st.

Definition set_job_due (b : bool) (w : World) : World :=
  {| now := now w; getpid := getpid w; path_exists := path_exists w;
     poll := poll w; pid_running := pid_running w;
     launch := launch w; graceful := graceful w; job_due := b;
     disk_ok := disk_ok w; status_file := status_file w |}.

(** [schedule.run_pending()] with the one job [setup_scheduler] registers:
    when the job is pending it runs and is scheduled for the next week. *)
Definition run_pending (st : State) : State :=
  if job_due (os st) then
    let st1 := check_monthly_restart st in
    set_os (set_job_due false (os st1)) st1
  else st.

(** One pass through the body of the [while] loop of [monitor_services].
    No call in the body lets an exception escape, so the [except] clauses
    of the loop are never entered. *)
Definition monitor_iteration (st : State) : State :=
  let st1 := run_pending st in
  loop_state st1 (for_each Body.monitor_service (services st1) (os st1))
  |> update_status
  |> sleep 30.

(** [monitor_services], for as long as the environment does not change:
    [n] bounds the number of passes. *)
Fixpoint monitor_services (n : nat) (st : State) : State :=
  match n with
  | O => st
  | S n' =>
      if running_flag st then monitor_services n' (monitor_iteration st)
      else st
  end.

(** [__init__], for the directory the script lives in. *)
Definition new_service (nm scr wd pp : string) : Service :=
  {| name := nm; script := scr; working_dir := wd; python_path := pp;
     process := None; pid := None; status := stopped;
     restart_count := 0; last_restart := None; last_health_check := None;
     consecutive_failures := 0 |}.

Definition init_services (base_dir : string) : list (string * Service) :=
  let dbsbm_dir := base_dir ++ "/DBSBM" in
  let dbsbmweb_dir := base_dir ++ "/DBSBMWEB" in
  [ ("discord_bot",
      new_service "Discord Bot (DBSBM)" "main.py" (dbsbm_dir ++ "/bot")
        dbsbm_dir);
    ("web_server",
      new_service "Web Server (DBSBMWEB)" "flask_service.py" dbsbmweb_dir
        dbsbmweb_dir);
    ("web_proxy",
      new_service "Web Proxy (Port 80)" "port80_proxy.py" dbsbmweb_dir
        dbsbmweb_dir) ].

Definition init (base_dir : string) (w : World) : State :=
  {| services := init_services base_dir; running_flag := false;
     last_monthly_restart := None; os := w; trace := [] |}.

(** ** Runs *)

(** What can happen to a manager: a method is called, the monitoring loop
    makes one pass, or the environment changes (children exit, time
    passes, files come and go, the weekly job becomes pending). *)
Inductive action :=
| AStart (id : string)
| AStop (id : string)
| ARestartOne (id : string)
| AHealth (id : string)
| AStartAll
| AStopAll
| ARestartAll
| AMonthlyCheck
| AUpdateStatus
| ASetRunning (b : bool)
| ATick
| AEnv (f : World -> World).

(** A call with an unknown name raises [KeyError] before anything is
    changed. *)
Definition called (r : option (bool * State)) (st : State) : State :=
  match r with
  | Some (_, st') => st'
  | None => st
  end.

Definition step (a : action) (st : State) : State :=
  match a with
  | AStart id => called (start_service id st) st
  | AStop id => called (stop_service id st) st
  | ARestartOne id => called (restart_service id st) st
  | AHealth id => called (check_service_health id st) st
  | AStartAll => snd (start_all_services st)
  | AStopAll => stop_all_services st
  | ARestartAll => restart_all_services st
  | AMonthlyCheck => check_monthly_restart st
  | AUpdateStatus => update_status st
  | ASetRunning b => set_running_flag b st
  | ATick => if running_flag st then monitor_iteration st else st
  | AEnv f => set_os (f (os st)) st
  end.

Definition execute (acts : list action) (st : State) : State :=
  fold_left (fun s a => step a s) acts st.

(** ** The restart policy *)

(** The time [monitor_services] sleeps for a service it finds dead with [n]
    consecutive failures: the two branches of the test on
    [consecutive_failures] in the loop, as a function of the counter. *)
Definition backoff_delay (n : nat) : nat :=
  if (n <=? 3)%nat then (2 ^ n)%nat else 60%nat.

(** The loop found the service dead: the health check failed and left the
    status ["died"]. *)
Definition found_dead (w : World) (s : Service) : Prop :=
  ret (Body.check_service_health w s) = false /\
  status (svc (Body.check_service_health w s)) = died.

(** The sleeps of a trace, in order. *)
Fixpoint sleeps (tr : list event) : list nat :=
  match tr with
  | [] => []
  | EvSleep n :: tr' => n :: sleeps tr'
  | _ :: tr' => sleeps tr'
  end.

(** The number of processes a trace launched. *)
Fixpoint popens (tr : list event) : nat :=
  match tr with
  | [] => 0%nat
  | EvPopen _ _ _ :: tr' => S (popens tr')
  | _ :: tr' => popens tr'
  end.

(** ** Sample worlds and records *)

Module Sample.

Definition noon (d : Z) : datetime :=
  {| year := 2026; month := 11; day := d; time_of_day := 43200 |}.

Definition child_of (path : string) : Z :=
  if (path =? "/srv/DBSBM/bot/main.py")%string then 4242
  else if (path =? "/srv/DBSBMWEB/flask_service.py")%string then 4243
  else 4244.

(** Every script exists and every launch yields a live child. *)
Definition quiet_world : World :=
  {| now := noon 3; getpid := 1000;
     path_exists := fun _ => true;
     poll := fun _ => None;
     pid_running := fun _ => false;
     launch := fun path => StillRunning (child_of path);
     graceful := fun _ => ExitsInTime 0;
     job_due := false; disk_ok := true; status_file := None |}.

(** Child [p] exits with return code [c]. *)
Definition child_exits (p c : Z) (w : World) : World := set_proc p (Some c) w.

(** No script exists any more. *)
Definition scripts_removed (w : World) : World :=
  {| now := now w; getpid := getpid w; path_exists := fun _ => false;
     poll := poll w; pid_running := pid_running w;
     launch := launch w; graceful := graceful w; job_due := job_due w;
     disk_ok := disk_ok w; status_file := status_file w |}.

(** Every launch yields child [p], which exits with [c] within the five
    seconds. *)
Definition launches_exit (p c : Z) (w : World) : World :=
  {| now := now w; getpid := getpid w; path_exists := path_exists w;
     poll := poll w; pid_running := pid_running w;
     launch := fun _ => Terminated p c ""; graceful := graceful w;
     job_due := job_due w; disk_ok := disk_ok w;
     status_file := status_file w |}.

Definition set_now (d : datetime) (w : World) : World :=
  {| now := d; getpid := getpid w; path_exists := path_exists w;
     poll := poll w; pid_running := pid_running w;
     launch := launch w; graceful := graceful w; job_due := job_due w;
     disk_ok := disk_ok w; status_file := status_file w |}.

Definition bot : Service :=
  new_service "Discord Bot (DBSBM)" "main.py" "/srv/DBSBM/bot" "/srv/DBSBM".

(** The bot after a successful start in [quiet_world]. *)
Definition bot_running : Service := svc (Body.start_service quiet_world bot).
Definition world_running : World := world (Body.start_service quiet_world bot).

Definition fresh : State := init "/srv" quiet_world.

End Sample.

(** ** Observations on traces and on the status file *)

(** The [wait_time] of every restart the monitoring loop announced. *)
Fixpoint restart_delays (tr : list event) : list nat :=
  match tr with
  | [] => []
  | EvLog _ (MsgRestartAfter _ wait_time _) :: tr' =>
      wait_time :: restart_delays tr'
  | _ :: tr' => restart_delays tr'
  end.

Definition count (p : event -> bool) (tr : list event) : nat :=
  length (filter p tr).

(** The log line of [check_monthly_restart]. *)
Definition is_monthly (e : event) : bool :=
  match e with
  | EvLog _ MsgMonthlyRestart => true
  | _ => false
  end.

(** The log line of a launch that [start_service] found alive after the
    five seconds, for the service with display name [nm]. *)
Definition is_started (nm : string) (e : event) : bool :=
  match e with
  | EvLog _ (MsgStarted nm' _) => (nm' =? nm)%string
  | _ => false
  end.

(** The number of monthly restarts a trace records. *)
Definition monthly_restarts (tr : list event) : nat := count is_monthly tr.

(** The number of successful launches of [nm] a trace records. *)
Definition started (nm : string) (tr : list event) : nat :=
  count (is_started nm) tr.

(** The [restart_count] the status file holds for service [id]. *)
Definition persisted_restart_count (id : string) (w : World) : option nat :=
  match status_file w with
  | Some d =>
      match find (fun e => (fst e =? id)%string) (sd_services d) with
      | Some e => Some (se_restart_count (snd e))
      | None => None
      end
  | None => None
  end.

(** ** Interrupted loops *)

(** The loop of [for_each] cut short after [k] services: the rest of the
    dictionary is as it was. *)
Fixpoint for_first (k : nat) (f : World -> Service -> Res)
  (l : list (string * Service)) (w : World) : Loop :=
  match k, l with
  | S k', (id, s) :: l' =>
      let r := f w s in
      let rest := for_first k' f l' (world r) in
      {| entries := (id, svc r) :: entries rest;
         after := after rest;
         caused := evs r ++ caused rest;
         successes := ((if ret r then 1 else 0) + successes rest)%nat |}
  | _, _ => {| entries := l; after := w; caused := []; successes := 0 |}
  end.

(** The state of the manager when [restart_all_services] is cut short (by
    an interrupt, say) after [k] of its calls of [stop_service] and
    [start_service]. *)
Definition restart_all_interrupted (k : nat) (st : State) : State :=
  let n := length (services st) in
  if (k <=? n)%nat then
    let st1 := st |> log INFO MsgRestartingAll |> log INFO MsgStoppingAll in
    loop_state st1 (for_first k Body.stop_service (services st1) (os st1))
  else
    let st2 := st |> log INFO MsgRestartingAll |> stop_all_services
                  |> sleep 5
                  |> log INFO MsgStartingManager |> log INFO MsgSeparator in
    loop_state st2
      (for_first (k - n) Body.start_service (services st2) (os st2)).

(** ** Invariants *)

(** The test [service["pid"] and self.is_process_running(service["pid"])]
    at the head of [start_service]. *)
Definition already_running (w : World) (s : Service) : bool :=
  truthy_pid (pid s) && is_process_running w (pid_or_zero (pid s)).

(** A property of service records that [start_service], [stop_service] and
    [check_service_health] preserve. *)
Definition stable (P : Service -> Prop) : Prop :=
  (forall w s, P s -> P (svc (Body.start_service w s))) /\
  (forall w s, P s -> P (svc (Body.stop_service w s))) /\
  (forall w s, P s -> P (svc (Body.check_service_health w s))).

(** What every method body respects: the clock, the disk, the pid of the
    manager and the weekly job are not touched, no monthly restart is
    logged, the display name stays, the restart count grows by the
    number of successful launches the body logged, all under the name of
    the service, and every stable property of the record is preserved. *)
Record tame (f : World -> Service -> Res) : Prop := {
  tame_now : forall w s, now (world (f w s)) = now w;
  tame_disk : forall w s, disk_ok (world (f w s)) = disk_ok w;
  tame_getpid : forall w s, getpid (world (f w s)) = getpid w;
  tame_monthly : forall w s, count is_monthly (evs (f w s)) = 0%nat;
  tame_name : forall w s, name (svc (f w s)) = name s;
  tame_count : forall w s,
    restart_count (svc (f w s))
    = (restart_count s + started (name s) (evs (f w s)))%nat;
  tame_other : forall w s nm,
    nm <> name s -> started nm (evs (f w s)) = 0%nat;
  tame_stable : forall P, stable P -> forall w s, P s -> P (svc (f w s))
}.

Definition names_of (l : list (string * Service)) : list string :=
  map (fun e => name (snd e)) l.

Definition counted_in (tr : list event) (l : list (string * Service)) : Prop :=
  Forall (fun e => restart_count (snd e) = started (name (snd e)) tr) l.

(** The restart counts agree with the trace, service by service; the
    display names tell the services apart. *)
Definition sound (st : State) : Prop :=
  NoDup (names_of (services st)) /\ counted_in (trace st) (services st).

(** Every service record of the manager has property [P]. *)
Definition all_services (P : Service -> Prop) (st : State) : Prop :=
  Forall (fun e => P (snd e)) (services st).

(** Clock, disk and the identity of the services stay, the restart counts
    keep agreeing with the trace, and the services keep every stable
    property. *)
Record steady (st st' : State) : Prop := {
  steady_now : now (os st') = now (os st);
  steady_disk : disk_ok (os st') = disk_ok (os st);
  steady_getpid : getpid (os st') = getpid (os st);
  steady_ids : map fst (services st') = map fst (services st);
  steady_names : names_of (services st') = names_of (services st);
  steady_sound : sound st -> sound st';
  steady_stable : forall P, stable P -> all_services P st -> all_services P st'
}.

(** No monthly restart happened. *)
Record calm (st st' : State) : Prop := {
  calm_lmr : last_monthly_restart st' = last_monthly_restart st;
  calm_monthly :
    monthly_restarts (trace st') = monthly_restarts (trace st)
}.

Definition kept (st st' : State) : Prop := steady st st' /\ calm st st'.

Definition in_month (y m : Z) (d : datetime) : Prop :=
  year d = y /\ month d = m.

(** A monthly restart was triggered between [st] and [st']: the log line
    was written once, the date of [st] was recorded, and the test on the
    recorded date had passed. *)
Definition triggered (st st' : State) : Prop :=
  monthly_restarts (trace st') = S (monthly_restarts (trace st)) /\
  last_monthly_restart st' = Some (now (os st)) /\
  not_restarted_this_month (last_monthly_restart st) (now (os st)) = true.

Definition is_env (a : action) : bool :=
  match a with AEnv _ => true | _ => false end.

(** The environment keeps the clock within the month [m] of year [y]. *)
Definition keeps_month (y m : Z) (a : action) : Prop :=
  match a with
  | AEnv f => forall w, in_month y m (now w) -> in_month y m (now (f w))
  | _ => True
  end.

(** What holds of the [Popen] object of every service, whatever happened
    to the manager: a recorded pid comes with its object, a service that
    died has none, a running service has one. *)
Definition handle_ok (s : Service) : Prop :=
  (pid s <> None -> process s <> None) /\
  (status s = died -> process s = None) /\
  (status s = running -> process s <> None).

(** ** Sample runs *)

Module Scenario.
Import Sample.

(** The bot is started, then crashes with return code 1 three times in a
    row; the loop makes a pass after each crash and its restart works. *)
Definition crash_three_times : list action :=
  [AStartAll; ASetRunning true;
   AEnv (child_exits 4242 1); ATick;
   AEnv (child_exits 4242 1); ATick;
   AEnv (child_exits 4242 1); ATick].

(** The bot crashes with return code 1 and from then on every launch of it
    exits with return code 1 before the five seconds are over. *)
Definition crash_and_fail_to_start : list action :=
  [AStartAll; ASetRunning true;
   AEnv (fun w => launches_exit 4242 1 (child_exits 4242 1 w)); ATick;
   ATick; ATick; ATick].

End Scenario.

Module EarlyExit.
Import Sample.

(** Every launch exits with return code 0 before the five seconds are
    over. *)
Definition clean_exit : State :=
  set_os (launches_exit 4242 0 quiet_world) fresh.

End EarlyExit.

Module Exited.
Import Sample.

(** The web server is started, its process exits by itself with return
    code 0, and the service is stopped before any health check ran. *)
Definition stop_after_exit : list action :=
  [AStart "web_server"; AEnv (child_exits 4243 0); AStop "web_server"].

End Exited.

Module Monday.
Import Sample.

(** Monday 2 November 2026, the first Monday of its month; the weekly job
    is pending. *)
Definition morning : State :=
  set_os (set_job_due true (set_now (noon 2) quiet_world)) fresh.

(** The loop makes three passes and the check is called once more by hand;
    before each pass the weekly job is pending again. *)
Definition busy_day : list action :=
  [AStartAll; ASetRunning true; ATick;
   AEnv (set_job_due true); ATick;
   AMonthlyCheck;
   AEnv (set_job_due true); ATick].

End Monday.

Module Twice.
Import Sample.

(** [start_service] is called for the bot, and then once more. *)
Definition once : State := called (start_service "discord_bot" fresh) fresh.
Definition twice : State := called (start_service "discord_bot" once) once.

End Twice.

(** ** The rest of the manager *)

(** The date [status] prints as the next monthly restart: the first day of
    the month after [today], found by going 32 days past the first of the
    month, and from there the first Monday. *)
Definition first_day_next_month (today : datetime) : datetime :=
  replace_day (add_days (replace_day today 1) 32) 1.

Definition next_first_monday (today : datetime) : datetime :=
  let first_day_next_month := first_day_next_month today in
  add_days first_day_next_month
    (Z.to_nat ((7 - weekday first_day_next_month) mod 7)).

(** [datetime.MINYEAR] and [datetime.MAXYEAR]: the years a [datetime] can
    hold.  Adding a [timedelta] that leaves them raises [OverflowError], so
    [add_days] describes the source only as long as the dates stay within
    them. *)
Definition MINYEAR : Z := 1.

Definition MAXYEAR : Z := 9999.

Definition in_range (d : datetime) : Prop :=
  MINYEAR <= year d <= MAXYEAR /\ 1 <= month d <= 12.

(** [str.lower()], on the letters A to Z.  The commands [main] compares
    with are made of the letters a, e, o, p, r, s, t and u, and no
    character outside A to Z has one of these as its lower case. *)
Definition lower_ascii (c : Ascii.ascii) : Ascii.ascii :=
  let n := Ascii.nat_of_ascii c in
  if ((65 <=? n) && (n <=? 90))%nat then Ascii.ascii_of_nat (n + 32) else c.

Fixpoint lower (s : string) : string :=
  match s with
  | EmptyString => EmptyString
  | String c s' => String (lower_ascii c) (lower s')
  end.

(** What [main] does with the manager it builds.  [run] and [status] are
    the methods it hands over to; [sys.exit(1)] ends the two other
    branches. *)
Inductive Ran :=
| RanUsage
| RanRun (manager : State)
| RanStopAll (manager : State)
| RanRestartAll (manager : State)
| RanStatus (manager : State)
| RanUnknown (command : string).

(** [main], for the arguments [sys.argv], the directory of the script and
    the world the process starts in. *)
Definition main (argv : list string) (base_dir : string) (w : World) : Ran :=
  match argv with
  | _ :: arg :: _ =>
      let command := lower arg in
      let manager := init base_dir w in
      if (command =? "start")%string then RanRun manager
      else if (command =? "stop")%string then
        RanStopAll (stop_all_services manager)
      else if (command =? "restart")%string then
        RanRestartAll (restart_all_services manager)
      else if (command =? "status")%string then RanStatus manager
      else RanUnknown command
  | _ => RanUsage
  end.

(** The launches of the script at [path] in a trace. *)
Fixpoint launches_of (path : string) (tr : list event) : nat :=
  match tr with
  | [] => 0%nat
  | EvPopen script_path _ _ :: tr' =>
      ((if (script_path =? path)%string then 1 else 0)
       + launches_of path tr')%nat
  | _ :: tr' => launches_of path tr'
  end.

(** The number of services whose script is the one at [path]. *)
Definition configured_with (path : string) (l : list (string * Service))
  : nat :=
  length (filter (fun e => (script_path (snd e) =? path)%string) l).

(** The stop and kill signals a trace sent. *)
Fixpoint signals (tr : list event) : nat :=
  match tr with
  | [] => 0%nat
  | EvTerminate _ :: tr' => S (signals tr')
  | EvKill _ :: tr' => S (signals tr')
  | _ :: tr' => signals tr'
  end.

(** A service the monitoring loop leaves alone: no pid is recorded, and
    the status is not ["died"] or more than three failures were counted. *)
Definition dormant (s : Service) : Prop :=
  truthy_pid (pid s) = false /\
  (status s <> died \/ (3 < consecutive_failures s)%nat).

(** A stretch of the monitoring loop in which no monthly restart is
    triggered: passes of the loop and, between them, changes of the
    environment, where at each pass the weekly job is not pending or finds
    no monthly restart due. *)
Fixpoint loop_without_monthly_restart (acts : list action) (st : State)
  : Prop :=
  match acts with
  | [] => True
  | a :: rest =>
      match a with
      | ATick =>
          running_flag st && job_due (os st) && monthly_restart_due st
          = false
      | AEnv _ => True
      | _ => False
      end /\
      loop_without_monthly_restart rest (step a st)
  end.

(** An entry of ["services"] in the status file that shows the service
    record [e] under its key: the seven fields [update_status] copies. *)
Definition shows (e : string * Service) (f : string * StatusEntry) : Prop :=
  fst f = fst e /\
  se_name (snd f) = name (snd e) /\
  se_status (snd f) = status_str (status (snd e)) /\
  se_pid (snd f) = pid (snd e) /\
  se_restart_count (snd f) = restart_count (snd e) /\
  se_last_restart (snd f) = last_restart (snd e) /\
  se_last_health_check (snd f) = last_health_check (snd e) /\
  se_consecutive_failures (snd f) = consecutive_failures (snd e).

(** A service that is down in world [w]: stopped, no pid, no live process. *)
Definition down (w : World) (s : Service) : Prop :=
  status s = stopped /\ pid s = None /\ Body.process_alive w s = false.

(** No stop of a process raises. *)
Definition stops_cleanly (w : World) : Prop :=
  forall p, graceful w p <> SignalRaises.

(** The pid goes with the status. *)
Definition pid_matches_status (s : Service) : Prop :=
  (status s = stopped \/ status s = died) -> pid s = None.

(** The failure count goes with the status. *)
Definition failures_match_status (s : Service) : Prop :=
  (status s = running -> consecutive_failures s = 0%nat) /\
  (status s = error \/ status s = died ->
   (1 <= consecutive_failures s)%nat).

Module Extra.
Import Sample.

(** Sunday 1 November 2026. *)
Definition sunday : datetime := noon 1.

(** The bot is up; the web server failed to start because its script is
    missing. *)
Definition bot_only (path : string) : bool :=
  (path =? "/srv/DBSBM/bot/main.py")%string.

Definition one_script : World :=
  {| now := noon 3; getpid := 1000;
     path_exists := bot_only;
     poll := fun _ => None;
     pid_running := fun _ => false;
     launch := fun path => StillRunning (child_of path);
     graceful := fun _ => ExitsInTime 0;
     job_due := false; disk_ok := true; status_file := None |}.

(** Stops raise. *)
Definition stubborn (w : World) : World :=
  {| now := now w; getpid := getpid w; path_exists := path_exists w;
     poll := poll w; pid_running := pid_running w;
     launch := launch w; graceful := fun _ => SignalRaises;
     job_due := job_due w; disk_ok := disk_ok w;
     status_file := status_file w |}.

(** The web server of a manager that was started with one script only. *)
Definition failed_web : Service :=
  svc (Body.start_service one_script
         (new_service "Web Server (DBSBMWEB)" "flask_service.py"
            "/srv/DBSBMWEB" "/srv/DBSBMWEB")).

End Extra.

(** * Theorems *)

Open Scope list_scope.

(** ** Facts about the dictionary *)

Lemma lookup_update_same (id : string) (s' : Service) l :
  lookup id l <> None -> lookup id (update id s' l) = Some s'.
Proof.
  induction l as [|[k s] l IH]; simpl; intros H.
  - congruence.
  - destruct (String.eqb k id) eqn:E; simpl; rewrite E; auto.
Qed.

Lemma update_same (id : string) (s : Service) l :
  lookup id l = Some s -> update id s l = l.
Proof.
  induction l as [|[k s0] l IH]; simpl; intros H; auto.
  destruct (String.eqb k id) eqn:E.
  - congruence.
  - rewrite IH; auto.
Qed.

Lemma call_some f id st s :
  lookup id (services st) = Some s ->
  call f id st =
    Some (ret (f (os st) s),
          {| services := update id (svc (f (os st) s)) (services st);
             running_flag := running_flag st;
             last_monthly_restart := last_monthly_restart st;
             os := world (f (os st) s);
             trace := trace st ++ evs (f (os st) s) |}).
Proof. intros H; unfold call; rewrite H; reflexivity. Qed.

(** ** The restart policy: theorems *)

Lemma pow2_le_60 (n : nat) : (n <= 3 -> 2 ^ n <= 60)%nat.
Proof.
  intros H.
  destruct n as [|[|[|[|n]]]]; simpl; lia.
Qed.

Lemma found_dead_monitor (w : World) (s : Service) :
  found_dead w s ->
  let r := Body.check_service_health w s in
  let n := consecutive_failures (svc r) in
  Body.monitor_service w s =
    if (n <=? 3)%nat then
      let a := Body.start_service (world r) (svc r) in
      {| ret := false; svc := svc a; world := world a;
         evs := evs r
                ++ [EvLog INFO (MsgRestartAfter (name (svc r)) (2 ^ n) n);
                    EvSleep (2 ^ n)]
                ++ evs a |}
    else
      {| ret := false; svc := svc r; world := world r;
         evs := evs r
                ++ [EvLog ERROR (MsgFailedTimes (name (svc r)) n);
                    EvSleep 60] |}.
Proof.
  intros [Hret Hst]; simpl.
  unfold Body.monitor_service.
  rewrite Hret, Hst; simpl.
  reflexivity.
Qed.

Lemma health_events_no_sleep (w : World) (s : Service) :
  sleeps (evs (Body.check_service_health w s)) = [] /\
  popens (evs (Body.check_service_health w s)) = 0%nat.
Proof.
  unfold Body.check_service_health.
  destruct (negb (truthy_pid _)); simpl; auto.
  destruct (negb (is_process_running _ _)); simpl; auto.
Qed.

Lemma sleeps_app (a b : list event) : sleeps (a ++ b) = sleeps a ++ sleeps b.
Proof.
  induction a as [|e a IH]; simpl; auto.
  destruct e; simpl; rewrite IH; auto.
Qed.

Lemma popens_app (a b : list event) : popens (a ++ b) = (popens a + popens b)%nat.
Proof.
  induction a as [|e a IH]; simpl; auto.
  destruct e; simpl; rewrite IH; auto.
Qed.

Lemma start_popens_le_1 (w : World) (s : Service) :
  (popens (evs (Body.start_service w s)) <= 1)%nat.
Proof.
  unfold Body.start_service.
  destruct (truthy_pid _ && _); simpl; auto.
  destruct (negb (path_exists _ _)); simpl; auto.
  destruct (launch _ _); simpl; auto.
  destruct (String.eqb _ _); simpl; auto.
Qed.

Lemma health_name (w : World) (s : Service) :
  name (svc (Body.check_service_health w s)) = name s.
Proof.
  unfold Body.check_service_health.
  destruct (negb (truthy_pid _)); simpl; auto.
  destruct (negb (is_process_running _ _)); simpl; auto.
Qed.

(** C2.  The delay slept by the monitoring loop is a function of the
    consecutive-failure count [n] alone: for a service found dead with count
    [n] the loop sleeps [backoff_delay n] seconds after the health check.
    [backoff_delay n] is [min (2^n) 60] for [n <= 3] and 60 for [n > 3];
    its values at 0, 3 and 4 are 1, 8 and 60; and it is non-decreasing on
    counts up to 3. *)
Theorem backoff_delay_spec (n : nat) :
  ((n <= 3)%nat -> backoff_delay n = Nat.min (2 ^ n) 60) /\
  ((3 < n)%nat -> backoff_delay n = 60%nat) /\
  backoff_delay 0 = 1%nat /\
  backoff_delay 3 = 8%nat /\
  backoff_delay 4 = 60%nat /\
  (forall m, (m <= n)%nat -> (n <= 3)%nat ->
             (backoff_delay m <= backoff_delay n)%nat) /\
  (forall w s,
      found_dead w s ->
      consecutive_failures (svc (Body.check_service_health w s)) = n ->
      hd_error (sleeps (evs (Body.monitor_service w s)))
      = Some (backoff_delay n)).
Proof.
  repeat split.
  - intros H. unfold backoff_delay.
    apply Nat.leb_le in H as H'. rewrite H'.
    pose proof (pow2_le_60 n H). lia.
  - intros H. unfold backoff_delay.
    destruct (Nat.leb_spec n 3); [lia | reflexivity].
  - intros m Hm Hn. unfold backoff_delay.
    apply Nat.leb_le in Hn as Hn'. rewrite Hn'.
    assert (Hm3 : (m <= 3)%nat) by lia.
    apply Nat.leb_le in Hm3 as Hm'. rewrite Hm'.
    apply Nat.pow_le_mono_r; lia.
  - intros w s Hd Hn.
    rewrite (found_dead_monitor w s Hd); simpl.
    rewrite Hn. unfold backoff_delay.
    destruct (health_events_no_sleep w s) as [Hs _].
    destruct (n <=? 3)%nat; simpl;
      rewrite sleeps_app, Hs; reflexivity.
Qed.

Lemma backoff_delay_spec_witness :
  backoff_delay 2 = Nat.min (2 ^ 2) 60 /\
  hd_error (sleeps (evs (Body.monitor_service
                           (Sample.child_exits 4242 1 Sample.world_running)
                           Sample.bot_running)))
  = Some (backoff_delay 1).
Proof.
  split.
  - apply (proj1 (backoff_delay_spec 2)). repeat constructor.
  - destruct (backoff_delay_spec 1) as (_ & _ & _ & _ & _ & _ & H).
    apply H; [split; reflexivity | reflexivity].
Defined.

(** When the health check meets a recorded pid whose process is gone, the
    loop finds the service dead and the death is counted at once. *)
Lemma observed_death (w : World) (s : Service) :
  truthy_pid (pid s) = true ->
  is_process_running w (pid_or_zero (pid s)) = false ->
  found_dead w s /\
  consecutive_failures (svc (Body.check_service_health w s))
  = (consecutive_failures s + 1)%nat.
Proof.
  intros Hp Hr. unfold found_dead, Body.check_service_health; simpl.
  rewrite Hp, Hr; simpl. auto.
Qed.

Lemma start_success_resets (w : World) (s : Service) :
  ret (Body.start_service w s) = true ->
  consecutive_failures (svc (Body.start_service w s)) = 0%nat.
Proof.
  unfold Body.start_service.
  destruct (truthy_pid _ && _); simpl; auto.
  destruct (negb (path_exists _ _)); simpl; [discriminate|].
  destruct (launch _ _); simpl; auto; discriminate.
Qed.

(** C1 (amended).  For a service the monitoring loop finds dead with
    consecutive-failure count [n] (the count after the health check, so a
    death the check has just observed is already included and [n >= 1]):
    if [n <= 3] the loop sleeps [2^n] seconds (2, 4 and 8 seconds for counts
    1, 2 and 3) and then makes one start attempt, which launches at most
    one process and, when it succeeds, resets the count to 0; if [n > 3]
    the pass sleeps 60 seconds. *)
Theorem monitor_backoff_schedule (w : World) (s : Service) (n : nat) :
  found_dead w s ->
  consecutive_failures (svc (Body.check_service_health w s)) = n ->
  let r := Body.check_service_health w s in
  let m := Body.monitor_service w s in
  let a := Body.start_service (world r) (svc r) in
  ((n <= 3)%nat ->
     evs m = evs r
             ++ [EvLog INFO (MsgRestartAfter (name s) (2 ^ n) n);
                 EvSleep (2 ^ n)]
             ++ evs a /\
     svc m = svc a /\ world m = world a /\
     sleeps (evs m) = (2 ^ n)%nat :: sleeps (evs a) /\
     (popens (evs m) <= 1)%nat) /\
  ((3 < n)%nat ->
     evs m = evs r
             ++ [EvLog ERROR (MsgFailedTimes (name s) n); EvSleep 60] /\
     sleeps (evs m) = [60%nat]) /\
  (n = 1%nat -> hd_error (sleeps (evs m)) = Some 2%nat) /\
  (n = 2%nat -> hd_error (sleeps (evs m)) = Some 4%nat) /\
  (n = 3%nat -> hd_error (sleeps (evs m)) = Some 8%nat) /\
  ((n <= 3)%nat -> ret a = true ->
     consecutive_failures (svc m) = 0%nat) /\
  (truthy_pid (pid s) = true -> n = (consecutive_failures s + 1)%nat).
Proof.
  intros Hd Hn r m a.
  pose proof (found_dead_monitor w s Hd) as Hm; cbv zeta in Hm.
  rewrite Hn, health_name in Hm.
  fold r in Hm. fold a in Hm. fold m in Hm.
  destruct (health_events_no_sleep w s) as [Hs Hp].
  fold r in Hs, Hp.
  assert (Hle : (n <= 3)%nat ->
                evs m = evs r
                        ++ [EvLog INFO (MsgRestartAfter (name s) (2 ^ n) n);
                            EvSleep (2 ^ n)] ++ evs a /\
                svc m = svc a /\ world m = world a /\
                sleeps (evs m) = (2 ^ n)%nat :: sleeps (evs a) /\
                (popens (evs m) <= 1)%nat).
  { intros H. apply Nat.leb_le in H. rewrite H in Hm. rewrite Hm; simpl.
    repeat split; auto.
    - rewrite sleeps_app, Hs; reflexivity.
    - rewrite popens_app, Hp; simpl. apply start_popens_le_1. }
  assert (Hhd : (n <= 3)%nat -> hd_error (sleeps (evs m)) = Some (2 ^ n)%nat).
  { intros H. destruct (Hle H) as (_ & _ & _ & Hsl & _).
    rewrite Hsl; reflexivity. }
  repeat split.
  - apply Hle; assumption.
  - apply Hle; assumption.
  - apply Hle; assumption.
  - apply Hle; assumption.
  - apply Hle; assumption.
  - destruct (Nat.leb_spec n 3); [lia|]. rewrite Hm; reflexivity.
  - destruct (Nat.leb_spec n 3); [lia|]. rewrite Hm; simpl.
    rewrite sleeps_app, Hs; reflexivity.
  - intros ->. apply (Hhd ltac:(lia)).
  - intros ->. apply (Hhd ltac:(lia)).
  - intros ->. apply (Hhd ltac:(lia)).
  - intros Hn3 Ha. destruct (Hle Hn3) as (_ & Hsvc & _).
    rewrite Hsvc. apply start_success_resets. exact Ha.
  - intros Ht.
    destruct Hd as [Hret Hst].
    unfold Body.check_service_health in *. simpl in *.
    rewrite Ht in *; simpl in *.
    destruct (is_process_running w (pid_or_zero (pid s))); simpl in *.
    + discriminate.
    + subst n; reflexivity.
Qed.

Lemma monitor_backoff_schedule_witness :
  found_dead (Sample.child_exits 4242 1 Sample.world_running)
    Sample.bot_running /\
  hd_error (sleeps (evs (Body.monitor_service
                           (Sample.child_exits 4242 1 Sample.world_running)
                           Sample.bot_running)))
  = Some 2%nat.
Proof.
  assert (Hd : found_dead (Sample.child_exits 4242 1 Sample.world_running)
                 Sample.bot_running) by (split; reflexivity).
  split; [exact Hd|].
  pose proof (monitor_backoff_schedule _ _ 1%nat Hd eq_refl) as H.
  cbv zeta in H.
  destruct H as (_ & _ & H1 & _).
  exact (H1 eq_refl).
Defined.

(** C1 as stated fails: a bot that crashes three times in a row is
    restarted after 2, 2 and 2 seconds (a successful start resets the
    counter), not after 1, 2 and 4; and when its restart fails, the status
    is ["error"] and the loop makes no further attempt, so the delays are
    just 2. *)
Lemma crash_delays_counterexample :
  restart_delays (trace (execute Scenario.crash_three_times Sample.fresh))
  = [2; 2; 2]%nat /\
  restart_delays (trace (execute Scenario.crash_three_times Sample.fresh))
  <> [1; 2; 4]%nat /\
  restart_delays (trace (execute Scenario.crash_and_fail_to_start Sample.fresh))
  = [2]%nat /\
  restart_delays (trace (execute Scenario.crash_and_fail_to_start Sample.fresh))
  <> [1; 2; 4]%nat.
Proof.
  assert (H1 : restart_delays
                 (trace (execute Scenario.crash_three_times Sample.fresh))
               = [2; 2; 2]%nat) by (vm_compute; reflexivity).
  assert (H2 : restart_delays
                 (trace (execute Scenario.crash_and_fail_to_start Sample.fresh))
               = [2]%nat) by (vm_compute; reflexivity).
  rewrite H1, H2. repeat split; congruence.
Qed.

(** ** Stopping *)

Lemma stop_not_alive (w : World) (s : Service) :
  Body.process_alive w s = false ->
  Body.stop_service w s =
    {| ret := true; svc := s |> set_status stopped |> set_pid None;
       world := w; evs := [EvLog INFO (MsgNotRunning (name s))] |}.
Proof.
  unfold Body.process_alive, Body.stop_service.
  destruct (process s) as [h|]; auto.
  destruct (poll w (popen_pid h)); auto.
  discriminate.
Qed.

Lemma stop_stopped_once (st : State) (id : string) (s : Service) :
  lookup id (services st) = Some s ->
  Body.process_alive (os st) s = false ->
  stop_service id st =
    Some (true,
          emit [EvLog INFO (MsgNotRunning (name s))]
            (set_services
               (update id (s |> set_status stopped |> set_pid None)
                  (services st)) st)).
Proof.
  intros Hl Ha. unfold stop_service.
  rewrite (call_some _ _ _ _ Hl), (stop_not_alive _ _ Ha). reflexivity.
Qed.

(** C5.  When a service has no live process (no [Popen] object, or one
    whose child has exited), two successive calls of [stop_service] both
    return [True] and leave the status ["stopped"]; neither touches the
    world nor sends a signal (the only event is the "is not running" log
    line); the second call changes nothing in the dictionary, and the first
    changes nothing either when the record was already stopped with no pid. *)
Theorem stop_stopped_twice (st : State) (id : string) (s : Service) :
  lookup id (services st) = Some s ->
  Body.process_alive (os st) s = false ->
  exists st1 st2 s1,
    stop_service id st = Some (true, st1) /\
    lookup id (services st1) = Some s1 /\ status s1 = stopped /\
    stop_service id st1 = Some (true, st2) /\
    lookup id (services st2) = Some s1 /\
    os st1 = os st /\ os st2 = os st /\
    trace st1 = trace st ++ [EvLog INFO (MsgNotRunning (name s))] /\
    trace st2 = trace st1 ++ [EvLog INFO (MsgNotRunning (name s))] /\
    services st2 = services st1 /\
    (status s = stopped -> pid s = None -> services st1 = services st).
Proof.
  intros Hl Ha.
  set (s1 := s |> set_status stopped |> set_pid None).
  pose proof (stop_stopped_once st id s Hl Ha) as H1. fold s1 in H1.
  set (st1 := emit [EvLog INFO (MsgNotRunning (name s))]
                (set_services (update id s1 (services st)) st)) in *.
  assert (Hl1 : lookup id (services st1) = Some s1)
    by (apply lookup_update_same; congruence).
  assert (Ha1 : Body.process_alive (os st1) s1 = false) by exact Ha.
  pose proof (stop_stopped_once st1 id s1 Hl1 Ha1) as H2.
  assert (Hs1 : s1 |> set_status stopped |> set_pid None = s1) by reflexivity.
  rewrite Hs1 in H2.
  assert (Hu : update id s1 (services st1) = services st1)
    by (apply update_same; exact Hl1).
  rewrite Hu in H2.
  eexists st1, _, s1.
  split; [exact H1|]. split; [exact Hl1|]. split; [reflexivity|].
  split; [exact H2|]. simpl.
  repeat split; auto.
  intros Hs Hp. apply update_same. rewrite Hl. f_equal.
  destruct s; simpl in *; subst; reflexivity.
Qed.

Lemma stop_stopped_twice_witness :
  exists st1 st2 s1,
    stop_service "web_proxy" Sample.fresh = Some (true, st1) /\
    lookup "web_proxy" (services st1) = Some s1 /\ status s1 = stopped /\
    stop_service "web_proxy" st1 = Some (true, st2) /\
    lookup "web_proxy" (services st2) = Some s1 /\
    os st1 = os Sample.fresh /\ os st2 = os Sample.fresh /\
    trace st1 = trace Sample.fresh
                ++ [EvLog INFO (MsgNotRunning "Web Proxy (Port 80)")] /\
    trace st2 = trace st1
                ++ [EvLog INFO (MsgNotRunning "Web Proxy (Port 80)")] /\
    services st2 = services st1 /\
    (stopped = stopped -> @None Z = None ->
     services st1 = services Sample.fresh).
Proof.
  exact (stop_stopped_twice Sample.fresh "web_proxy"
           (new_service "Web Proxy (Port 80)" "port80_proxy.py"
              "/srv/DBSBMWEB" "/srv/DBSBMWEB")
           eq_refl eq_refl).
Defined.

(** ** Starting *)

Lemma start_script_missing (w : World) (s : Service) :
  already_running w s = false ->
  path_exists w (script_path s) = false ->
  Body.start_service w s =
    {| ret := false;
       svc := s |> set_status error |> incr_consecutive_failures;
       world := w;
       evs := [EvLog ERROR (MsgScriptNotFound (script_path s))] |}.
Proof.
  unfold already_running, Body.start_service.
  intros -> ->. reflexivity.
Qed.

(** C8.  When [start_service] reaches the test of the script path (the
    service is not already running: no recorded pid, or the recorded pid is
    not a running process) and the script does not exist, it returns
    [False], sets the status to ["error"], adds exactly one to
    [consecutive_failures] and changes no other field: the [Popen] slot and
    the pid stay as they were (empty when they were empty).  It launches no
    process: the world is unchanged and the only event is the "script not
    found" log line. *)
Theorem start_missing_script (st : State) (id : string) (s : Service) :
  lookup id (services st) = Some s ->
  already_running (os st) s = false ->
  path_exists (os st) (script_path s) = false ->
  exists st1 s1,
    start_service id st = Some (false, st1) /\
    lookup id (services st1) = Some s1 /\
    s1 = (s |> set_status error |> incr_consecutive_failures) /\
    status s1 = error /\
    consecutive_failures s1 = (consecutive_failures s + 1)%nat /\
    process s1 = process s /\ pid s1 = pid s /\
    (process s = None -> process s1 = None) /\
    os st1 = os st /\
    trace st1 = trace st ++ [EvLog ERROR (MsgScriptNotFound (script_path s))] /\
    popens (trace st1) = popens (trace st).
Proof.
  intros Hl Hr He.
  unfold start_service.
  rewrite (call_some _ _ _ _ Hl), (start_script_missing _ _ Hr He); simpl.
  eexists _, _. split; [reflexivity|]. simpl.
  split; [apply lookup_update_same; congruence|].
  repeat split; auto.
  rewrite popens_app; simpl. lia.
Qed.

Lemma start_missing_script_witness :
  exists st1 s1,
    start_service "discord_bot"
      (set_os (Sample.scripts_removed Sample.quiet_world) Sample.fresh)
    = Some (false, st1) /\
    lookup "discord_bot" (services st1) = Some s1 /\
    status s1 = error /\ consecutive_failures s1 = 1%nat /\
    process s1 = None /\ popens (trace st1) = 0%nat.
Proof.
  destruct (start_missing_script
              (set_os (Sample.scripts_removed Sample.quiet_world) Sample.fresh)
              "discord_bot"
              (new_service "Discord Bot (DBSBM)" "main.py" "/srv/DBSBM/bot"
                 "/srv/DBSBM")
              eq_refl eq_refl eq_refl)
    as (st1 & s1 & H1 & H2 & _ & H4 & H5 & H6 & _ & _ & _ & _ & H7).
  exists st1, s1. repeat split; assumption.
Defined.

Lemma start_launch (w : World) (s : Service) :
  already_running w s = false ->
  path_exists w (script_path s) = true ->
  Body.start_service w s =
    let popen := EvPopen (script_path s) (working_dir s) (python_path s) in
    match launch w (script_path s) with
    | StillRunning p =>
        {| ret := true;
           svc := s |> set_process (Some {| popen_pid := p |})
                    |> set_pid (Some p)
                    |> set_status running
                    |> incr_restart_count
                    |> set_last_restart (Some (now w))
                    |> set_consecutive_failures 0%nat;
           world := set_proc p None w;
           evs := [EvLog INFO (MsgStarting (name s)); popen; EvSleep 5;
                   EvLog INFO (MsgStarted (name s) p)] |}
    | Terminated p code output =>
        {| ret := false;
           svc := s |> set_status error |> incr_consecutive_failures;
           world := set_proc p (Some code) w;
           evs := [EvLog INFO (MsgStarting (name s)); popen; EvSleep 5;
                   EvCommunicate p;
                   EvLog ERROR (MsgFailedToStart (name s));
                   EvLog ERROR (MsgExitCode code)]
                  ++ (if (output =? "")%string then []
                      else [EvLog ERROR (MsgOutput output)]) |}
    | PopenRaises =>
        {| ret := false;
           svc := s |> set_status error |> incr_consecutive_failures;
           world := w;
           evs := [EvLog INFO (MsgStarting (name s)); popen;
                   EvLog ERROR (MsgStartException (name s))] |}
    end.
Proof.
  unfold already_running, Body.start_service.
  intros -> ->. reflexivity.
Qed.

(** C6 (amended).  For a service that is not already running and whose
    script exists: when the launched process is still alive after the five
    seconds [start_service] waits, the call returns [True] and the status is
    ["running"] (set directly: the manager has no "starting" status), with
    the [Popen] object and the pid recorded, the restart count incremented and
    the failure count reset; when the process has exited within the five
    seconds, whatever its return code (0 included), the call returns
    [False] and the status is ["error"] (neither ["stopped"] nor ["died"]),
    with the failure count incremented and no process recorded anew. *)
Theorem start_grace_window (st : State) (id : string) (s : Service) :
  lookup id (services st) = Some s ->
  already_running (os st) s = false ->
  path_exists (os st) (script_path s) = true ->
  (forall p, launch (os st) (script_path s) = StillRunning p ->
     exists st1 s1,
       start_service id st = Some (true, st1) /\
       lookup id (services st1) = Some s1 /\
       status s1 = running /\
       process s1 = Some {| popen_pid := p |} /\ pid s1 = Some p /\
       restart_count s1 = (restart_count s + 1)%nat /\
       consecutive_failures s1 = 0%nat) /\
  (forall p code output,
     launch (os st) (script_path s) = Terminated p code output ->
     exists st1 s1,
       start_service id st = Some (false, st1) /\
       lookup id (services st1) = Some s1 /\
       status s1 = error /\ status s1 <> stopped /\ status s1 <> died /\
       process s1 = process s /\ pid s1 = pid s /\
       restart_count s1 = restart_count s /\
       consecutive_failures s1 = (consecutive_failures s + 1)%nat).
Proof.
  intros Hl Hr He.
  unfold start_service.
  rewrite (call_some _ _ _ _ Hl), (start_launch _ _ Hr He).
  cbv zeta.
  split.
  - intros p Hp. rewrite Hp. simpl.
    eexists _, _. split; [reflexivity|]. simpl.
    split; [apply lookup_update_same; congruence|].
    repeat split.
  - intros p code output Hp. rewrite Hp. simpl.
    eexists _, _. split; [reflexivity|]. simpl.
    split; [apply lookup_update_same; congruence|].
    repeat split; discriminate.
Qed.

Lemma start_grace_window_witness :
  (exists st1 s1,
     start_service "discord_bot" Sample.fresh = Some (true, st1) /\
     lookup "discord_bot" (services st1) = Some s1 /\
     status s1 = running /\ pid s1 = Some 4242) /\
  (exists st1 s1,
     start_service "discord_bot" EarlyExit.clean_exit = Some (false, st1) /\
     lookup "discord_bot" (services st1) = Some s1 /\
     status s1 = error).
Proof.
  split.
  - destruct (start_grace_window Sample.fresh "discord_bot"
                (new_service "Discord Bot (DBSBM)" "main.py" "/srv/DBSBM/bot"
                   "/srv/DBSBM") eq_refl eq_refl eq_refl) as [H _].
    destruct (H 4242 eq_refl) as (st1 & s1 & H1 & H2 & H3 & _ & H4 & _).
    exists st1, s1. repeat split; assumption.
  - destruct (start_grace_window EarlyExit.clean_exit "discord_bot"
                (new_service "Discord Bot (DBSBM)" "main.py" "/srv/DBSBM/bot"
                   "/srv/DBSBM") eq_refl eq_refl eq_refl) as [_ H].
    destruct (H 4242 0 "" eq_refl) as (st1 & s1 & H1 & H2 & H3 & _).
    exists st1, s1. repeat split; assumption.
Defined.

(** C6 as stated fails: the launched process exits with return code 0
    within the five seconds, and the status is ["error"], not
    ["stopped"]. *)
Lemma start_clean_exit_counterexample :
  launch (os EarlyExit.clean_exit) "/srv/DBSBM/bot/main.py"
  = Terminated 4242 0 "" /\
  exists st1 s1,
    start_service "discord_bot" EarlyExit.clean_exit = Some (false, st1) /\
    lookup "discord_bot" (services st1) = Some s1 /\
    status s1 = error /\ status s1 <> stopped.
Proof.
  split; [reflexivity|].
  eexists _, _.
  split; [reflexivity|]. split; [reflexivity|].
  split; [reflexivity | discriminate].
Qed.

(** ** The health check *)

(** C9 (amended).  Every health check stamps [last_health_check] with the
    time of the check, whatever the branch it takes.  For a service with no
    recorded pid that is all it does: it returns [False], causes no event,
    leaves the world alone and changes no other field.  For a service whose
    recorded pid is not a running process it returns [False], sets the
    status to ["died"], clears the [Popen] object and the pid and adds
    exactly one to [consecutive_failures]; name, script, working directory,
    Python path, restart count and last-restart stamp are unchanged.  For a
    service whose recorded pid is a running process it returns [True],
    sets the status to ["running"] and [consecutive_failures] to 0, and
    keeps the [Popen] object, the pid and the other fields. *)
Theorem health_check_frame (w : World) (s : Service) :
  let r := Body.check_service_health w s in
  (pid s = None ->
     ret r = false /\ world r = w /\ evs r = [] /\
     svc r = set_last_health_check (Some (now w)) s) /\
  (truthy_pid (pid s) = true ->
   is_process_running w (pid_or_zero (pid s)) = false ->
     ret r = false /\ world r = w /\
     svc r =
       {| name := name s; script := script s; working_dir := working_dir s;
          python_path := python_path s; process := None; pid := None;
          status := died; restart_count := restart_count s;
          last_restart := last_restart s;
          last_health_check := Some (now w);
          consecutive_failures := (consecutive_failures s + 1)%nat |}) /\
  (truthy_pid (pid s) = true ->
   is_process_running w (pid_or_zero (pid s)) = true ->
     ret r = true /\ world r = w /\ evs r = [] /\
     svc r =
       {| name := name s; script := script s; working_dir := working_dir s;
          python_path := python_path s; process := process s; pid := pid s;
          status := running; restart_count := restart_count s;
          last_restart := last_restart s;
          last_health_check := Some (now w);
          consecutive_failures := 0%nat |}) /\
  last_health_check (svc r) = Some (now w).
Proof.
  unfold Body.check_service_health; simpl.
  split; [|split; [|split]].
  - intros Hp. rewrite Hp; simpl. auto.
  - intros Ht Hr. rewrite Ht, Hr; simpl. auto.
  - intros Ht Hr. rewrite Ht, Hr; simpl. auto.
  - destruct (truthy_pid (pid s)); simpl; [|reflexivity].
    destruct (is_process_running w (pid_or_zero (pid s))); reflexivity.
Qed.

Lemma health_check_frame_witness :
  svc (Body.check_service_health Sample.quiet_world Sample.bot)
  = set_last_health_check (Some (Sample.noon 3)) Sample.bot /\
  status (svc (Body.check_service_health
                 (Sample.child_exits 4242 1 Sample.world_running)
                 Sample.bot_running)) = died /\
  status (svc (Body.check_service_health Sample.world_running
                 Sample.bot_running)) = running.
Proof.
  split; [|split].
  - destruct (health_check_frame Sample.quiet_world Sample.bot) as [H _].
    destruct (H eq_refl) as (_ & _ & _ & H1). exact H1.
  - destruct (health_check_frame
                (Sample.child_exits 4242 1 Sample.world_running)
                Sample.bot_running) as (_ & H & _).
    destruct (H eq_refl eq_refl) as (_ & _ & H1).
    rewrite H1. reflexivity.
  - destruct (health_check_frame Sample.world_running Sample.bot_running)
      as (_ & _ & H & _).
    destruct (H eq_refl eq_refl) as (_ & _ & _ & H1).
    rewrite H1. reflexivity.
Defined.

(** C9 as stated fails: the bot has no pid, and the health check changes
    its record (the time stamp of the last check). *)
Lemma health_check_noop_counterexample :
  pid Sample.bot = None /\ process Sample.bot = None /\
  svc (Body.check_service_health Sample.quiet_world Sample.bot) <> Sample.bot.
Proof.
  repeat split.
  intros H. apply (f_equal last_health_check) in H. discriminate.
Qed.

(** ** The handle and the status *)

(** The branch of [stop_service] for a process that is not running any
    more clears the pid and sets ["stopped"], and keeps the [Popen]
    object. *)
Lemma stop_exited_keeps_process (w : World) (s : Service) (h : Popen) (c : Z) :
  process s = Some h -> poll w (popen_pid h) = Some c ->
  ret (Body.stop_service w s) = true /\
  status (svc (Body.stop_service w s)) = stopped /\
  pid (svc (Body.stop_service w s)) = None /\
  process (svc (Body.stop_service w s)) = Some h.
Proof.
  intros Hp Hc. unfold Body.stop_service. rewrite Hp, Hc. simpl. auto.
Qed.

(** C4 on the failing run: after [stop_service] on a service whose process
    had already exited, the status is ["stopped"] and the [Popen] object
    is still in the record. *)
Theorem stop_after_exit_keeps_handle :
  exists s,
    lookup "web_server" (services (execute Exited.stop_after_exit Sample.fresh))
    = Some s /\
    status s = stopped /\ pid s = None /\
    process s = Some {| popen_pid := 4243 |}.
Proof.
  eexists. split; [reflexivity|]. repeat split.
Qed.

(** The other paths keep the [Popen] object and the status in step: a stop
    of a live process and an observed death clear the object, a successful
    launch records one. *)
Lemma handle_cleared_or_recorded (w : World) (s : Service) :
  (Body.process_alive w s = true ->
   ret (Body.stop_service w s) = true ->
   status (svc (Body.stop_service w s)) = stopped /\
   process (svc (Body.stop_service w s)) = None) /\
  (found_dead w s -> truthy_pid (pid s) = true ->
   status (svc (Body.check_service_health w s)) = died /\
   process (svc (Body.check_service_health w s)) = None) /\
  (already_running w s = false ->
   ret (Body.start_service w s) = true ->
   status (svc (Body.start_service w s)) = running /\
   process (svc (Body.start_service w s)) <> None).
Proof.
  split; [|split].
  - unfold Body.process_alive, Body.stop_service.
    destruct (process s) as [h|]; [|discriminate].
    destruct (poll w (popen_pid h)); [discriminate|].
    destruct (graceful w (popen_pid h)); simpl; auto; discriminate.
  - intros [Hr Hs] Ht. split; [exact Hs|]. revert Hr.
    unfold Body.check_service_health; simpl. rewrite Ht; simpl.
    destruct (is_process_running w (pid_or_zero (pid s))); simpl; auto.
    discriminate.
  - unfold already_running, Body.start_service.
    intros ->.
    destruct (negb (path_exists w (script_path s))); [discriminate|].
    destruct (launch w (script_path s)); simpl; try discriminate.
    intros _. split; [reflexivity | discriminate].
Qed.

(** ** Counting events *)

Lemma count_app p (a b : list event) :
  count p (a ++ b) = (count p a + count p b)%nat.
Proof. unfold count. rewrite filter_app, length_app. reflexivity. Qed.

Lemma count_cons_false p (e : event) (l : list event) :
  p e = false -> count p (e :: l) = count p l.
Proof. intros H. unfold count; simpl. rewrite H. reflexivity. Qed.

Lemma count_cons_true p (e : event) (l : list event) :
  p e = true -> count p (e :: l) = S (count p l).
Proof. intros H. unfold count; simpl. rewrite H. reflexivity. Qed.

Lemma eqb_name_refl (s : string) : (s =? s)%string = true.
Proof. apply String.eqb_refl. Qed.

Lemma eqb_name_other (a b : string) : b <> a -> (a =? b)%string = false.
Proof. intros H. apply String.eqb_neq. congruence. Qed.

Ltac body_cases :=
  repeat match goal with
         | |- context [if ?c then _ else _] => destruct c eqn:?
         | |- context [match ?x with _ => _ end] => destruct x eqn:?
         end.

Ltac count_simpl :=
  unfold started, count; simpl;
  repeat rewrite eqb_name_refl; simpl; try lia; try reflexivity.

Lemma start_tame : tame Body.start_service.
Proof.
  constructor;
    [ intros; unfold Body.start_service; body_cases; count_simpl ..
    | intros P (H & _ & _); exact H ].
  all: rewrite (eqb_name_other _ _ H); reflexivity.
Qed.

Lemma stop_tame : tame Body.stop_service.
Proof.
  constructor;
    [ intros; unfold Body.stop_service; body_cases; count_simpl ..
    | intros P (_ & H & _); exact H ].
Qed.

Lemma health_tame : tame Body.check_service_health.
Proof.
  constructor;
    [ intros; unfold Body.check_service_health; body_cases; count_simpl ..
    | intros P (_ & _ & H); exact H ].
Qed.

Lemma restart_tame : tame Body.restart_service.
Proof.
  pose proof stop_tame as [S1 S2 S3 S4 S5 S6 S7 S8].
  pose proof start_tame as [T1 T2 T3 T4 T5 T6 T7 T8].
  constructor; intros; unfold Body.restart_service; simpl.
  - rewrite T1, S1. reflexivity.
  - rewrite T2, S2. reflexivity.
  - rewrite T3, S3. reflexivity.
  - change (count is_monthly
              (evs (Body.stop_service w s) ++ EvSleep 2 ::
               evs (Body.start_service (world (Body.stop_service w s))
                      (svc (Body.stop_service w s)))) = 0%nat).
    rewrite count_app, S4.
    change (count is_monthly (EvSleep 2 :: ?l)) with (count is_monthly l).
    apply T4.
  - rewrite T5, S5. reflexivity.
  - rewrite T6, S6, S5. unfold started at 3.
    change (count (is_started (name s))
              (EvLog INFO (MsgRestarting (name s)) :: ?l))
      with (count (is_started (name s)) l).
    rewrite count_app.
    change (count (is_started (name s)) (EvSleep 2 :: ?l))
      with (count (is_started (name s)) l).
    unfold started. lia.
  - unfold started.
    change (count (is_started nm)
              (EvLog INFO (MsgRestarting (name s)) :: ?l))
      with (count (is_started nm) l).
    rewrite count_app.
    change (count (is_started nm) (EvSleep 2 :: ?l))
      with (count (is_started nm) l).
    fold (started nm (evs (Body.stop_service w s))).
    rewrite (S7 _ _ _ H).
    apply T7. rewrite S5. exact H.
  - apply T8; auto. apply S8; auto.
Qed.

Lemma monitor_tame : tame Body.monitor_service.
Proof.
  pose proof health_tame as [S1 S2 S3 S4 S5 S6 S7 S8].
  pose proof start_tame as [T1 T2 T3 T4 T5 T6 T7 T8].
  constructor;
    [ intros; unfold Body.monitor_service;
      destruct (ret (Body.check_service_health w s)); auto;
      destruct (status_eqb _ died); auto;
      destruct (Nat.leb _ 3); simpl; auto .. | ].
  - rewrite T1; auto.
  - rewrite T2; auto.
  - rewrite T3; auto.
  - rewrite count_app, S4, !count_cons_false by reflexivity. apply T4.
  - rewrite count_app, S4. reflexivity.
  - rewrite T5; auto.
  - rewrite T6, S6, S5. unfold started.
    rewrite count_app, !count_cons_false by reflexivity. lia.
  - rewrite S6. unfold started.
    rewrite count_app, !count_cons_false by reflexivity.
    unfold count at 3; simpl. lia.
  - unfold started.
    rewrite count_app, !count_cons_false by reflexivity.
    fold (started nm (evs (Body.check_service_health w s))).
    rewrite (S7 _ _ _ H). simpl.
    apply T7. rewrite S5. exact H.
  - unfold started.
    rewrite count_app, !count_cons_false by reflexivity.
    fold (started nm (evs (Body.check_service_health w s))).
    rewrite (S7 _ _ _ H). reflexivity.
  - intros P HP w s Hs. unfold Body.monitor_service.
    destruct (ret (Body.check_service_health w s)); [apply S8; auto|].
    destruct (status_eqb _ died); [|apply S8; auto].
    destruct (Nat.leb _ 3); simpl; [apply T8; auto|]; apply S8; auto.
Qed.

(** ** Loops over the services *)

Lemma for_each_for_first f l w :
  for_each f l w = for_first (length l) f l w.
Proof.
  revert w. induction l as [|[id s] l IH]; intros w; simpl; auto.
  rewrite IH. reflexivity.
Qed.

Section Loops.

Variable f : World -> Service -> Res.
Hypothesis f_tame : tame f.

Lemma for_first_world k l w :
  now (after (for_first k f l w)) = now w /\
  disk_ok (after (for_first k f l w)) = disk_ok w /\
  getpid (after (for_first k f l w)) = getpid w.
Proof.
  revert l w. induction k as [|k IH]; intros [|[id s] l] w; simpl; auto.
  destruct (IH l (world (f w s))) as (H1 & H2 & H3).
  rewrite H1, H2, H3.
  rewrite (tame_now f f_tame), (tame_disk f f_tame), (tame_getpid f f_tame).
  auto.
Qed.

Lemma for_first_monthly k l w :
  count is_monthly (caused (for_first k f l w)) = 0%nat.
Proof.
  revert l w. induction k as [|k IH]; intros [|[id s] l] w; simpl; auto.
  rewrite count_app, IH, (tame_monthly f f_tame). reflexivity.
Qed.

Lemma for_first_keys k l w :
  map fst (entries (for_first k f l w)) = map fst l /\
  names_of (entries (for_first k f l w)) = names_of l.
Proof.
  revert l w. induction k as [|k IH]; intros [|[id s] l] w; simpl; auto.
  destruct (IH l (world (f w s))) as (H1 & H2).
  unfold names_of in *. simpl.
  rewrite H1, H2, (tame_name f f_tame). auto.
Qed.

Lemma for_first_other k l w nm :
  ~ In nm (names_of l) ->
  started nm (caused (for_first k f l w)) = 0%nat.
Proof.
  revert l w. induction k as [|k IH]; intros [|[id s] l] w H; simpl; auto.
  unfold started. rewrite count_app.
  fold (started nm (evs (f w s))).
  fold (started nm (caused (for_first k f l (world (f w s))))).
  simpl in H.
  rewrite (tame_other f f_tame), IH; auto.
Qed.

Lemma counted_in_app tr e l :
  (forall nm, In nm (names_of l) -> started nm e = 0%nat) ->
  counted_in tr l -> counted_in (tr ++ e) l.
Proof.
  unfold counted_in. intros He Hc.
  rewrite Forall_forall in *. intros x Hx.
  unfold started. rewrite count_app.
  fold (started (name (snd x)) tr). fold (started (name (snd x)) e).
  rewrite He, <- Hc; auto.
  unfold names_of. apply in_map_iff. exists x; auto.
Qed.

Lemma for_first_counted k l w tr :
  NoDup (names_of l) -> counted_in tr l ->
  counted_in (tr ++ caused (for_first k f l w)) (entries (for_first k f l w)).
Proof.
  revert l w tr. induction k as [|k IH]; intros [|[id s] l] w tr Hn Hc;
    simpl; try (rewrite app_nil_r; exact Hc).
  inversion Hn as [|? ? Hnotin Hn']; subst.
  inversion Hc as [|? ? Hs Hc']; subst. simpl in Hs.
  constructor.
  - simpl. rewrite (tame_name f f_tame), (tame_count f f_tame), Hs.
    unfold started. rewrite !count_app.
    fold (started (name s) (caused (for_first k f l (world (f w s))))).
    rewrite for_first_other; auto.
  - rewrite app_assoc. apply IH; auto.
    apply counted_in_app; auto.
    intros nm Hin. apply (tame_other f f_tame).
    intros ->. contradiction.
Qed.

Lemma for_first_all P k l w :
  stable P ->
  Forall (fun e => P (snd e)) l ->
  Forall (fun e => P (snd e)) (entries (for_first k f l w)).
Proof.
  intros HP. revert l w.
  induction k as [|k IH]; intros [|[id s] l] w Hl; simpl; auto.
  inversion Hl as [|? ? Hs Hl']; subst. simpl in Hs.
  constructor; simpl; auto.
  apply (tame_stable f f_tame); auto.
Qed.

End Loops.

(** ** What the methods of the manager keep *)

Lemma steady_refl st : steady st st.
Proof. constructor; auto. Qed.

Lemma steady_trans a b c : steady a b -> steady b c -> steady a c.
Proof.
  intros [A1 A2 A3 A4 A5 A6 A7] [B1 B2 B3 B4 B5 B6 B7].
  constructor; try congruence; auto.
Qed.

Lemma calm_trans a b c : calm a b -> calm b c -> calm a c.
Proof. intros [A1 A2] [B1 B2]. constructor; congruence. Qed.

Lemma kept_refl st : kept st st.
Proof. split; [apply steady_refl | constructor; auto]. Qed.

Lemma kept_trans a b c : kept a b -> kept b c -> kept a c.
Proof.
  intros [A1 A2] [B1 B2].
  split; [eapply steady_trans | eapply calm_trans]; eauto.
Qed.

Lemma steady_emit e st :
  (forall nm, started nm e = 0%nat) -> steady st (emit e st).
Proof.
  intros He. constructor; simpl; auto.
  intros [Hn Hc]. split; simpl; auto.
  apply counted_in_app; auto.
Qed.

Lemma calm_emit e st : count is_monthly e = 0%nat -> calm st (emit e st).
Proof.
  intros He. constructor; simpl; auto.
  unfold monthly_restarts. rewrite count_app, He. lia.
Qed.

Lemma kept_log l m st :
  is_monthly (EvLog l m) = false ->
  (forall nm, is_started nm (EvLog l m) = false) ->
  kept st (log l m st).
Proof.
  intros H1 H2. split.
  - apply steady_emit. intros nm. unfold started.
    rewrite count_cons_false; auto.
  - apply calm_emit. rewrite count_cons_false; auto.
Qed.

Lemma kept_sleep n st : kept st (sleep n st).
Proof.
  split; [apply steady_emit | apply calm_emit]; reflexivity.
Qed.

Lemma kept_log_if b l m st :
  is_monthly (EvLog l m) = false ->
  (forall nm, is_started nm (EvLog l m) = false) ->
  kept st (log_if b l m st).
Proof.
  intros H1 H2. destruct b; simpl; [apply kept_log; auto | apply kept_refl].
Qed.

Lemma kept_set_os w st :
  now w = now (os st) -> disk_ok w = disk_ok (os st) ->
  getpid w = getpid (os st) ->
  kept st (set_os w st).
Proof.
  intros H1 H2 H3. split; constructor; simpl; auto.
Qed.

Lemma kept_update_status st : kept st (update_status st).
Proof.
  unfold update_status. destruct (disk_ok (os st)).
  - apply kept_set_os; reflexivity.
  - apply kept_log; reflexivity.
Qed.

Lemma kept_loop f k st :
  tame f ->
  kept st (loop_state st (for_first k f (services st) (os st))).
Proof.
  intros Hf.
  destruct (for_first_world f Hf k (services st) (os st)) as (H1 & H2 & H3).
  destruct (for_first_keys f Hf k (services st) (os st)) as (H4 & H5).
  split; constructor; simpl; auto.
  - intros [Hn Hc]. split; simpl.
    + rewrite H5; exact Hn.
    + apply for_first_counted; auto.
  - intros P HP Hall. apply (for_first_all f Hf); auto.
  - unfold monthly_restarts.
    rewrite count_app, (for_first_monthly f Hf). lia.
Qed.

Lemma kept_for_each f st :
  tame f ->
  kept st (loop_state st (for_each f (services st) (os st))).
Proof.
  intros Hf. rewrite for_each_for_first. apply kept_loop; exact Hf.
Qed.

Lemma update_keys id s s' l :
  lookup id l = Some s -> name s' = name s ->
  map fst (update id s' l) = map fst l /\
  names_of (update id s' l) = names_of l.
Proof.
  intros Hl Hn. revert Hl.
  induction l as [|[k x] l IH]; simpl; auto.
  destruct (String.eqb k id) eqn:E; simpl.
  - intros [= ->]. unfold names_of; simpl. rewrite Hn. auto.
  - intros Hl. destruct (IH Hl) as [H1 H2].
    unfold names_of in *; simpl. rewrite H1, H2. auto.
Qed.

Lemma update_counted f id s l w tr :
  tame f ->
  lookup id l = Some s ->
  NoDup (names_of l) -> counted_in tr l ->
  counted_in (tr ++ evs (f w s)) (update id (svc (f w s)) l).
Proof.
  intros Hf Hl. revert Hl.
  induction l as [|[k x] l IH]; simpl; intros Hl Hn Hc.
  - constructor.
  - inversion Hn as [|? ? Hnotin Hn']; subst.
    inversion Hc as [|? ? Hx Hc']; subst. simpl in Hx.
    destruct (String.eqb k id) eqn:E.
    + injection Hl as ->. constructor.
      * simpl. rewrite (tame_name f Hf), (tame_count f Hf), Hx.
        unfold started. rewrite count_app. reflexivity.
      * apply counted_in_app; auto.
        intros nm Hin. apply (tame_other f Hf).
        intros ->. contradiction.
    + constructor.
      * simpl. unfold started. rewrite count_app.
        fold (started (name x) tr). fold (started (name x) (evs (f w s))).
        rewrite (tame_other f Hf), <- Hx; auto.
        intros Heq. apply Hnotin. rewrite Heq.
        clear - Hl. induction l as [|[k' y] l IH]; simpl in *.
        -- discriminate.
        -- destruct (String.eqb k' id).
           ++ injection Hl as ->. auto.
           ++ right. auto.
      * apply IH; auto.
Qed.

Lemma lookup_all (P : Service -> Prop) id l s :
  Forall (fun e => P (snd e)) l -> lookup id l = Some s -> P s.
Proof.
  induction 1 as [|[k x] l Hx Hl IH]; simpl; [discriminate|].
  destruct (String.eqb k id); auto.
  intros [= <-]. exact Hx.
Qed.

Lemma update_all (P : Service -> Prop) id s' l :
  Forall (fun e => P (snd e)) l -> P s' ->
  Forall (fun e => P (snd e)) (update id s' l).
Proof.
  induction 1 as [|[k x] l Hx Hl IH]; simpl; intros Hs; auto.
  destruct (String.eqb k id); constructor; auto.
Qed.

Lemma kept_call f id st b st' :
  tame f -> call f id st = Some (b, st') -> kept st st'.
Proof.
  intros Hf. unfold call.
  destruct (lookup id (services st)) as [s|] eqn:Hl; [|discriminate].
  intros [= _ <-].
  destruct (update_keys id s (svc (f (os st) s)) (services st) Hl
              (tame_name f Hf _ _)) as [H1 H2].
  split; constructor; simpl; auto.
  - apply (tame_now f Hf).
  - apply (tame_disk f Hf).
  - apply (tame_getpid f Hf).
  - intros [Hn Hc]. split; simpl.
    + rewrite H2; exact Hn.
    + apply update_counted; auto.
  - intros P HP Hall. unfold all_services in *; simpl.
    apply update_all; auto.
    apply (tame_stable f Hf); auto.
    apply (lookup_all _ _ _ _ Hall Hl).
  - unfold monthly_restarts. rewrite count_app, (tame_monthly f Hf). lia.
Qed.

Lemma kept_called f id st :
  tame f -> kept st (called (call f id st) st).
Proof.
  intros Hf. destruct (call f id st) as [[b st']|] eqn:E; simpl.
  - eapply kept_call; eauto.
  - apply kept_refl.
Qed.

Ltac kept_steps :=
  repeat first
    [ apply kept_refl
    | apply kept_update_status
    | apply kept_sleep
    | (apply kept_log; [reflexivity | reflexivity])
    | (apply kept_log_if; [reflexivity | reflexivity])
    | (eapply kept_trans; [| apply kept_update_status])
    | (eapply kept_trans; [| apply kept_sleep])
    | (eapply kept_trans; [| apply kept_log; [reflexivity | reflexivity]])
    | (eapply kept_trans; [| apply kept_log_if; [reflexivity | reflexivity]]) ].

Lemma kept_stop_all st : kept st (stop_all_services st).
Proof.
  unfold stop_all_services.
  kept_steps.
  eapply kept_trans; [| apply kept_for_each, stop_tame].
  kept_steps.
Qed.

Lemma kept_start_all st : kept st (snd (start_all_services st)).
Proof.
  unfold start_all_services. cbv zeta. cbn [snd].
  match goal with
  | |- kept _ (if ?c then _ else _) => destruct c
  end; kept_steps;
    (eapply kept_trans; [| apply kept_for_each, start_tame]);
    kept_steps.
Qed.

Lemma kept_restart_all st : kept st (restart_all_services st).
Proof.
  unfold restart_all_services.
  eapply kept_trans; [| apply kept_start_all].
  eapply kept_trans; [| apply kept_sleep].
  eapply kept_trans; [| apply kept_stop_all].
  apply kept_log; reflexivity.
Qed.

Lemma kept_restart_interrupted k st : kept st (restart_all_interrupted k st).
Proof.
  unfold restart_all_interrupted. cbv zeta.
  destruct (Nat.leb k (length (services st))).
  - eapply kept_trans; [| apply kept_loop, stop_tame]. kept_steps.
  - eapply kept_trans; [| apply kept_loop, start_tame].
    eapply kept_trans; [| apply kept_log; reflexivity].
    eapply kept_trans; [| apply kept_log; reflexivity].
    eapply kept_trans; [| apply kept_sleep].
    eapply kept_trans; [| apply kept_stop_all].
    apply kept_log; reflexivity.
Qed.

(** ** The monthly restart *)

Lemma restarted_this_month d today :
  in_month (year today) (month today) d ->
  not_restarted_this_month (Some d) today = false.
Proof.
  intros [Hy Hm]. simpl. rewrite Hy, Hm, !Z.eqb_refl. reflexivity.
Qed.

Lemma check_marked_noop st d :
  last_monthly_restart st = Some d ->
  in_month (year (now (os st))) (month (now (os st))) d ->
  check_monthly_restart st = st.
Proof.
  intros Hl Hd. unfold check_monthly_restart, monthly_restart_due.
  rewrite Hl, (restarted_this_month _ _ Hd), andb_false_r. reflexivity.
Qed.

Lemma steady_mark st : steady st (mark_monthly_restart st).
Proof.
  unfold mark_monthly_restart.
  constructor; simpl; auto.
  intros [Hn Hc]. split; simpl; auto.
  apply counted_in_app; auto.
Qed.

Lemma mark_triggers st :
  monthly_restarts (trace (mark_monthly_restart st))
  = S (monthly_restarts (trace st)) /\
  last_monthly_restart (mark_monthly_restart st) = Some (now (os st)).
Proof.
  unfold mark_monthly_restart, monthly_restarts; simpl.
  rewrite count_app. unfold count at 2. simpl. split; [lia | reflexivity].
Qed.

Lemma calm_kept a b c : calm a b -> kept b c -> calm a c.
Proof. intros H [_ K]. eapply calm_trans; eauto. Qed.

Lemma triggered_kept a b c : triggered a b -> kept b c -> triggered a c.
Proof.
  intros (H1 & H2 & H3) [_ [K1 K2]].
  repeat split; auto; congruence.
Qed.

Lemma once_kept a b c :
  calm a b \/ triggered a b -> kept b c -> calm a c \/ triggered a c.
Proof.
  intros [H|H] K; [left; eapply calm_kept | right; eapply triggered_kept];
    eauto.
Qed.

Lemma check_monthly_cases st :
  steady st (check_monthly_restart st) /\
  (calm st (check_monthly_restart st) \/
   triggered st (check_monthly_restart st)).
Proof.
  unfold check_monthly_restart.
  destruct (monthly_restart_due st) eqn:Hdue.
  - pose proof (kept_restart_all (mark_monthly_restart st)) as [Ks Kc].
    split.
    + eapply steady_trans; [apply steady_mark | exact Ks].
    + right. destruct (mark_triggers st) as [H1 H2].
      destruct Kc as [K1 K2].
      repeat split; try congruence.
      unfold monthly_restart_due in Hdue.
      apply andb_true_iff in Hdue. apply Hdue.
  - split; [apply steady_refl | left; constructor; auto].
Qed.

Lemma kept_job_done st : kept st (set_os (set_job_due false (os st)) st).
Proof. apply kept_set_os; reflexivity. Qed.

Lemma run_pending_cases st :
  steady st (run_pending st) /\
  (calm st (run_pending st) \/ triggered st (run_pending st)).
Proof.
  unfold run_pending. destruct (job_due (os st)).
  - destruct (check_monthly_cases st) as [Hs Hc].
    pose proof (kept_job_done (check_monthly_restart st)) as K.
    split.
    + eapply steady_trans; [exact Hs | apply K].
    + eapply once_kept; eauto.
  - split; [apply steady_refl | left; constructor; auto].
Qed.

Lemma kept_after_pending st :
  kept st (loop_state st (for_each Body.monitor_service (services st) (os st))
           |> update_status |> sleep 30).
Proof.
  eapply kept_trans; [| apply kept_sleep].
  eapply kept_trans; [| apply kept_update_status].
  apply kept_for_each, monitor_tame.
Qed.

Lemma monitor_iteration_cases st :
  steady st (monitor_iteration st) /\
  (calm st (monitor_iteration st) \/ triggered st (monitor_iteration st)).
Proof.
  unfold monitor_iteration. cbv zeta.
  destruct (run_pending_cases st) as [Hs Hc].
  pose proof (kept_after_pending (run_pending st)) as K.
  split.
  - eapply steady_trans; [exact Hs | apply K].
  - eapply once_kept; eauto.
Qed.

Lemma step_cases a st :
  (is_env a = false -> steady st (step a st)) /\
  (calm st (step a st) \/ triggered st (step a st)).
Proof.
  assert (K : forall st', kept st st' ->
                (is_env a = false -> steady st st') /\
                (calm st st' \/ triggered st st'))
    by (intros st' [Ks Kc]; auto).
  destruct a; simpl.
  - apply K, kept_called, start_tame.
  - apply K, kept_called, stop_tame.
  - apply K, kept_called, restart_tame.
  - apply K, kept_called, health_tame.
  - apply K, kept_start_all.
  - apply K, kept_stop_all.
  - apply K, kept_restart_all.
  - destruct (check_monthly_cases st); auto.
  - apply K, kept_update_status.
  - apply K. split; constructor; simpl; auto.
  - destruct (running_flag st).
    + destruct (monitor_iteration_cases st); auto.
    + apply K, kept_refl.
  - split; [discriminate | left; constructor; reflexivity].
Qed.

Lemma step_in_month y m a st :
  keeps_month y m a ->
  in_month y m (now (os st)) -> in_month y m (now (os (step a st))).
Proof.
  intros Hk Hin.
  destruct (is_env a) eqn:E.
  - destruct a; try discriminate. simpl in *. auto.
  - destruct (step_cases a st) as [Hs _].
    rewrite (steady_now _ _ (Hs E)). exact Hin.
Qed.

Lemma execute_cons a acts st : execute (a :: acts) st = execute acts (step a st).
Proof. reflexivity. Qed.

Lemma execute_marked y m acts st d :
  Forall (keeps_month y m) acts ->
  in_month y m (now (os st)) ->
  last_monthly_restart st = Some d -> in_month y m d ->
  monthly_restarts (trace (execute acts st)) = monthly_restarts (trace st) /\
  last_monthly_restart (execute acts st) = Some d.
Proof.
  intros Hk. revert st.
  induction Hk as [|a acts Ha Hk IH]; intros st Hin Hl Hd; [auto|].
  rewrite execute_cons.
  assert (Hc : calm st (step a st)).
  { destruct (step_cases a st) as [_ [Hc|(_ & _ & Hn)]]; [exact Hc|].
    destruct Hin as [Hy Hm], Hd as [Hy' Hm'].
    rewrite Hl, (restarted_this_month d (now (os st))) in Hn;
      [discriminate | split; congruence]. }
  destruct Hc as [C1 C2].
  destruct (IH (step a st)) as [I1 I2]; auto.
  - apply step_in_month; auto.
  - congruence.
  - split; congruence.
Qed.

Lemma execute_at_most_once y m acts st :
  Forall (keeps_month y m) acts ->
  in_month y m (now (os st)) ->
  (monthly_restarts (trace (execute acts st))
   <= monthly_restarts (trace st) + 1)%nat.
Proof.
  intros Hk. revert st.
  induction Hk as [|a acts Ha Hk IH]; intros st Hin; [simpl; lia|].
  rewrite execute_cons.
  pose proof (step_in_month y m a st Ha Hin) as Hin'.
  destruct (step_cases a st) as [_ [[C1 C2]|(T1 & T2 & T3)]].
  - specialize (IH (step a st) Hin'). lia.
  - destruct (execute_marked y m acts (step a st) (now (os st)) Hk Hin' T2 Hin)
      as [R1 _].
    lia.
Qed.

(** C3.  In any run of the manager during which the clock stays within
    one calendar month, whatever methods are called, however many passes
    the monitoring loop makes and however often the weekly job is found
    pending, at most one monthly restart is triggered; and once
    [last_monthly_restart] lies in the current month and year, none is:
    the stored date and the number of monthly restarts stay as they are,
    and [check_monthly_restart] by itself changes nothing at all. *)
Theorem monthly_restart_at_most_once (y m : Z) (acts : list action)
  (st : State) :
  Forall (keeps_month y m) acts ->
  in_month y m (now (os st)) ->
  (monthly_restarts (trace (execute acts st))
   <= monthly_restarts (trace st) + 1)%nat /\
  (forall d, last_monthly_restart st = Some d -> in_month y m d ->
     monthly_restarts (trace (execute acts st)) = monthly_restarts (trace st) /\
     last_monthly_restart (execute acts st) = Some d /\
     check_monthly_restart st = st).
Proof.
  intros Hk Hin. split.
  - eapply execute_at_most_once; eauto.
  - intros d Hl Hd.
    destruct (execute_marked y m acts st d Hk Hin Hl Hd) as [H1 H2].
    repeat split; auto.
    apply (check_marked_noop st d Hl).
    destruct Hin as [<- <-]. exact Hd.
Qed.

Lemma busy_day_in_november : Forall (keeps_month 2026 11) Monday.busy_day.
Proof.
  unfold Monday.busy_day.
  repeat (apply Forall_cons; [simpl; try exact I; intros w H; exact H|]).
  apply Forall_nil.
Qed.

Lemma monthly_restart_at_most_once_witness :
  monthly_restarts (trace (execute Monday.busy_day Monday.morning)) = 1%nat /\
  (monthly_restarts (trace (execute Monday.busy_day Monday.morning))
   <= monthly_restarts (trace Monday.morning) + 1)%nat.
Proof.
  split; [vm_compute; reflexivity|].
  apply (monthly_restart_at_most_once 2026 11 Monday.busy_day Monday.morning
           busy_day_in_november (conj eq_refl eq_refl)).
Defined.

(** C10.  When the monthly restart is due, [check_monthly_restart] writes
    its log line, stores today's date in [last_monthly_restart] and only
    then calls [restart_all_services] on the state that holds the date.
    Whatever happens in the cycle (stops or starts that fail, or the cycle
    cut short after any number of its stop and start calls), the date
    stays recorded; and from any such state, in any further run during the
    same month, no second monthly restart is triggered. *)
Theorem monthly_mark_precedes_restart (st : State) :
  monthly_restart_due st = true ->
  let today := now (os st) in
  let marked := mark_monthly_restart st in
  check_monthly_restart st = restart_all_services marked /\
  trace marked = trace st ++ [EvLog INFO MsgMonthlyRestart] /\
  last_monthly_restart marked = Some today /\
  last_monthly_restart (check_monthly_restart st) = Some today /\
  (forall k,
     last_monthly_restart (restart_all_interrupted k marked) = Some today) /\
  (forall k acts,
     Forall (keeps_month (year today) (month today)) acts ->
     monthly_restarts (trace (execute acts (restart_all_interrupted k marked)))
     = S (monthly_restarts (trace st))) /\
  (forall acts,
     Forall (keeps_month (year today) (month today)) acts ->
     monthly_restarts (trace (execute acts (check_monthly_restart st)))
     = S (monthly_restarts (trace st))).
Proof.
  intros Hdue today marked.
  assert (Hcheck : check_monthly_restart st = restart_all_services marked)
    by (unfold check_monthly_restart; rewrite Hdue; reflexivity).
  destruct (mark_triggers st) as [Hcount Hlmr].
  fold marked in Hcount, Hlmr. fold today in Hlmr.
  assert (Hnow : now (os marked) = today) by reflexivity.
  assert (Hafter : forall st',
             kept marked st' ->
             last_monthly_restart st' = Some today /\
             forall acts,
               Forall (keeps_month (year today) (month today)) acts ->
               monthly_restarts (trace (execute acts st'))
               = S (monthly_restarts (trace st))).
  { intros st' [Ks [K1 K2]].
    assert (Hl : last_monthly_restart st' = Some today) by congruence.
    split; [exact Hl|]. intros acts Hk.
    destruct (execute_marked (year today) (month today) acts st' today Hk)
      as [R1 _]; auto.
    - rewrite (steady_now _ _ Ks), Hnow. split; reflexivity.
    - split; reflexivity.
    - congruence. }
  split; [exact Hcheck|]. split; [reflexivity|]. split; [exact Hlmr|].
  rewrite Hcheck.
  split; [apply Hafter, kept_restart_all|].
  split; [intros k; apply Hafter, kept_restart_interrupted|].
  split.
  - intros k. apply Hafter, kept_restart_interrupted.
  - apply Hafter, kept_restart_all.
Qed.

Lemma monthly_mark_precedes_restart_witness :
  monthly_restart_due Monday.morning = true /\
  last_monthly_restart (mark_monthly_restart Monday.morning)
  = Some (Sample.noon 2) /\
  last_monthly_restart
    (restart_all_interrupted 4 (mark_monthly_restart Monday.morning))
  = Some (Sample.noon 2) /\
  monthly_restarts
    (trace (execute Monday.busy_day
              (restart_all_interrupted 4
                 (mark_monthly_restart Monday.morning))))
  = 1%nat.
Proof.
  pose proof (monthly_mark_precedes_restart Monday.morning eq_refl) as H.
  cbv zeta in H.
  destruct H as (_ & _ & H1 & _ & H2 & H3 & _).
  split; [reflexivity|]. split; [exact H1|]. split; [exact (H2 4%nat)|].
  exact (H3 4%nat Monday.busy_day busy_day_in_november).
Defined.

(** ** The persisted restart count *)

Lemma step_sound a st :
  sound st ->
  sound (step a st) /\
  map fst (services (step a st)) = map fst (services st).
Proof.
  intros Hs.
  destruct (is_env a) eqn:E.
  - destruct a; try discriminate. simpl. auto.
  - destruct (step_cases a st) as [H _].
    specialize (H E). split.
    + apply (steady_sound _ _ H Hs).
    + apply (steady_ids _ _ H).
Qed.

Lemma execute_sound acts st :
  sound st ->
  sound (execute acts st) /\
  map fst (services (execute acts st)) = map fst (services st).
Proof.
  revert st. induction acts as [|a acts IH]; intros st Hs; [auto|].
  rewrite execute_cons.
  destruct (step_sound a st Hs) as [H1 H2].
  destruct (IH _ H1) as [H3 H4].
  split; [exact H3 | congruence].
Qed.

Lemma init_sound base_dir w : sound (init base_dir w).
Proof.
  split; simpl.
  - unfold names_of; simpl.
    repeat constructor; simpl; intuition discriminate.
  - repeat constructor.
Qed.

(** Each call of [start_service] logs a successful launch exactly when it
    returns [True] for a service that was not already running. *)
Lemma start_logged (w : World) (s : Service) :
  started (name s) (evs (Body.start_service w s))
  = if ret (Body.start_service w s) && negb (already_running w s)
    then 1%nat else 0%nat.
Proof.
  unfold already_running, Body.start_service.
  body_cases; simpl in *; try discriminate; count_simpl.
Qed.

Lemma tick_persists st :
  disk_ok (os st) = true ->
  exists st2,
    steady st st2 /\
    services (monitor_iteration st) = services st2 /\
    trace (monitor_iteration st) = trace st2 ++ [EvSleep 30] /\
    status_file (os (monitor_iteration st)) = Some (status_data st2).
Proof.
  intros Hd.
  unfold monitor_iteration. cbv zeta.
  destruct (run_pending_cases st) as [Hs _].
  pose proof (kept_for_each Body.monitor_service (run_pending st)
                monitor_tame) as [Ks _].
  set (st2 := loop_state (run_pending st)
                (for_each Body.monitor_service (services (run_pending st))
                   (os (run_pending st)))) in *.
  assert (Hst : steady st st2) by (eapply steady_trans; eauto).
  exists st2. split; [exact Hst|].
  unfold update_status.
  rewrite (steady_disk _ _ Hst), Hd. simpl. auto.
Qed.

(** C7 (amended).  After any sequence of method calls, passes of the loop
    and changes of the environment since [__init__], a pass of the
    monitoring loop that can write the status file leaves in it, for each
    of the three services, a [restart_count] equal to the number of
    successful launches logged for that service, that is, the number of
    [start_service] calls that returned [True] after launching a process
    (a call that returns [True] because the service is already running
    launches nothing and is not counted). *)
Theorem restart_count_persisted (base_dir : string) (w0 : World)
  (acts : list action) :
  disk_ok (os (execute acts (init base_dir w0))) = true ->
  let st := monitor_iteration (execute acts (init base_dir w0)) in
  (exists d,
     status_file (os st) = Some d /\
     map fst (sd_services d) = ["discord_bot"; "web_server"; "web_proxy"] /\
     forall id e, In (id, e) (sd_services d) ->
       se_restart_count e = started (se_name e) (trace st)) /\
  (forall w s,
     started (name s) (evs (Body.start_service w s))
     = if ret (Body.start_service w s) && negb (already_running w s)
       then 1%nat else 0%nat).
Proof.
  intros Hd st. split; [|apply start_logged].
  destruct (execute_sound acts (init base_dir w0) (init_sound base_dir w0))
    as [Hs Hids].
  destruct (tick_persists _ Hd) as (st2 & Hst & Hsv & Htr & Hfile).
  fold st in Hsv, Htr, Hfile.
  destruct (steady_sound _ _ Hst Hs) as [_ Hc].
  exists (status_data st2). split; [exact Hfile|]. split.
  - simpl. rewrite map_map. simpl.
    change (map (fun x => fst x) (services st2))
      with (map fst (services st2)).
    rewrite (steady_ids _ _ Hst), Hids. reflexivity.
  - intros id e Hin. simpl in Hin.
    apply in_map_iff in Hin as ([k s] & Heq & Hin).
    injection Heq as _ <-.
    change (restart_count s = started (name s) (trace st)).
    unfold counted_in in Hc. rewrite Forall_forall in Hc.
    pose proof (Hc _ Hin) as Hk. simpl in Hk. rewrite Hk.
    rewrite Htr. unfold started. rewrite count_app.
    change (count (is_started (name s)) [EvSleep 30]) with 0%nat. lia.
Qed.

Lemma restart_count_persisted_witness :
  exists d,
    status_file
      (os (monitor_iteration
             (execute [AStartAll; AEnv (Sample.child_exits 4242 1)]
                (init "/srv" Sample.quiet_world)))) = Some d /\
    map fst (sd_services d) = ["discord_bot"; "web_server"; "web_proxy"] /\
    forall id e, In (id, e) (sd_services d) ->
      se_restart_count e
      = started (se_name e)
          (trace (monitor_iteration
                    (execute [AStartAll; AEnv (Sample.child_exits 4242 1)]
                       (init "/srv" Sample.quiet_world)))).
Proof.
  exact (proj1 (restart_count_persisted "/srv" Sample.quiet_world
                  [AStartAll; AEnv (Sample.child_exits 4242 1)] eq_refl)).
Defined.

(** C7 as stated fails: two calls of [start_service] for the bot return
    [True] (the second because the bot is already running), and the pass
    of the loop that follows writes a [restart_count] of 1, not 2. *)
Lemma restart_count_counterexample :
  option_map fst (start_service "discord_bot" Sample.fresh) = Some true /\
  option_map fst (start_service "discord_bot" Twice.once) = Some true /\
  persisted_restart_count "discord_bot" (os (monitor_iteration Twice.twice))
  = Some 1%nat /\
  persisted_restart_count "discord_bot" (os (monitor_iteration Twice.twice))
  <> Some 2%nat.
Proof.
  assert (H : persisted_restart_count "discord_bot"
                (os (monitor_iteration Twice.twice)) = Some 1%nat)
    by (vm_compute; reflexivity).
  rewrite H.
  split; [vm_compute; reflexivity|].
  split; [vm_compute; reflexivity|].
  split; [reflexivity | discriminate].
Qed.

(** ** The handle along a run *)

Lemma truthy_pid_some (o : option Z) : truthy_pid o = true -> o <> None.
Proof. destruct o; [discriminate | discriminate]. Qed.

Lemma start_handle_ok w s :
  handle_ok s -> handle_ok (svc (Body.start_service w s)).
Proof.
  intros (H1 & H2 & H3). unfold handle_ok, Body.start_service.
  destruct (truthy_pid (pid s) && _) eqn:E.
  - simpl. repeat split; auto; try discriminate.
    intros _. apply H1.
    apply andb_true_iff in E as [E _]. apply truthy_pid_some, E.
  - body_cases; simpl; repeat split; auto; discriminate.
Qed.

Lemma stop_handle_ok w s :
  handle_ok s -> handle_ok (svc (Body.stop_service w s)).
Proof.
  intros (H1 & H2 & H3). unfold handle_ok, Body.stop_service.
  destruct (process s) as [h|] eqn:Hp.
  - destruct (poll w (popen_pid h)).
    + simpl. rewrite Hp. repeat split; congruence.
    + destruct (graceful w (popen_pid h)); simpl; try rewrite Hp;
        repeat split; auto; congruence.
  - simpl. rewrite Hp. repeat split; congruence.
Qed.

Lemma health_handle_ok w s :
  handle_ok s -> handle_ok (svc (Body.check_service_health w s)).
Proof.
  intros (H1 & H2 & H3). unfold handle_ok, Body.check_service_health.
  simpl. destruct (truthy_pid (pid s)) eqn:E; simpl.
  - destruct (is_process_running w (pid_or_zero (pid s))); simpl.
    + repeat split; auto; try discriminate.
      intros _. apply H1, truthy_pid_some, E.
    + repeat split; auto; congruence.
  - repeat split; auto.
Qed.

Lemma handle_ok_stable : stable handle_ok.
Proof.
  split; [|split]; intros w s H;
    [apply start_handle_ok | apply stop_handle_ok | apply health_handle_ok];
    exact H.
Qed.

Lemma execute_stable P acts st :
  stable P -> all_services P st -> all_services P (execute acts st).
Proof.
  intros HP. revert st.
  induction acts as [|a acts IH]; intros st Hall; [exact Hall|].
  rewrite execute_cons. apply IH.
  destruct (is_env a) eqn:E.
  - destruct a; try discriminate. exact Hall.
  - destruct (step_cases a st) as [H _].
    apply (steady_stable _ _ (H E) P HP Hall).
Qed.

(** Whatever methods were called and whatever the environment did since
    [__init__], a service that is running has a [Popen] object and a
    service that died has none. *)
Lemma handle_along_execution base_dir w acts id s :
  lookup id (services (execute acts (init base_dir w))) = Some s ->
  handle_ok s.
Proof.
  intros Hl.
  apply (lookup_all handle_ok id _ s
           (execute_stable handle_ok acts (init base_dir w)
              handle_ok_stable
              ltac:(repeat constructor; simpl; congruence))
           Hl).
Qed.

(** ** The first Monday *)

Lemma days_in_month_bounds (y m : Z) :
  28 <= days_in_month y m <= 31.
Proof.
  unfold days_in_month.
  destruct (m =? 2); [destruct (is_leap y); lia|].
  destruct ((m =? 4) || (m =? 6) || (m =? 9) || (m =? 11)); lia.
Qed.

Lemma add_days_succ (d : datetime) (k : nat) :
  add_days d (S k) = next_day (add_days d k).
Proof. reflexivity. Qed.

Lemma add_days_plus (d : datetime) (a b : nat) :
  add_days d (a + b) = add_days (add_days d b) a.
Proof.
  unfold add_days. induction a as [|a IH]; simpl; [reflexivity|].
  rewrite IH. reflexivity.
Qed.

(** Adding days that stay within the month only moves the day. *)
Lemma add_days_in_month (d : datetime) (k : nat) :
  day d + Z.of_nat k <= days_in_month (year d) (month d) ->
  add_days d k =
    {| year := year d; month := month d; day := day d + Z.of_nat k;
       time_of_day := time_of_day d |}.
Proof.
  induction k as [|k IH]; intros H.
  - simpl. destruct d; simpl. f_equal. lia.
  - rewrite add_days_succ, IH by lia.
    unfold next_day; simpl.
    destruct (Z.ltb_spec (day d + Z.of_nat k)
                (days_in_month (year d) (month d))); [|lia].
    f_equal. lia.
Qed.

Lemma toordinal_day (d : datetime) (n : Z) :
  toordinal (replace_day d n) = toordinal d + (n - day d).
Proof. unfold toordinal, replace_day; simpl. lia. Qed.

Lemma first_monday_of_eq (today : datetime) :
  first_monday_of today =
    replace_day today
      (1 + (7 - weekday (replace_day today 1)) mod 7).
Proof.
  unfold first_monday_of.
  set (first_day := replace_day today 1).
  assert (Hk : 0 <= (7 - weekday first_day) mod 7 < 7)
    by (apply Z.mod_pos_bound; lia).
  rewrite add_days_in_month; rewrite Z2Nat.id by lia.
  - reflexivity.
  - pose proof (days_in_month_bounds (year first_day) (month first_day)).
    change (day first_day) with 1. lia.
Qed.

Lemma weekday_of_day (today : datetime) (n : Z) :
  weekday (replace_day today n)
  = (toordinal (replace_day today 1) + 6 + (n - 1)) mod 7.
Proof.
  unfold weekday. rewrite !toordinal_day. f_equal. lia.
Qed.

Lemma first_monday_is_first_facts (today : datetime) :
  year (first_monday_of today) = year today /\
  month (first_monday_of today) = month today /\
  1 <= day (first_monday_of today) <= 7 /\
  weekday (first_monday_of today) = 0.
Proof.
  rewrite first_monday_of_eq.
  set (k := (7 - weekday (replace_day today 1)) mod 7).
  assert (Hk : 0 <= k < 7) by (apply Z.mod_pos_bound; lia).
  assert (Hw : weekday (replace_day today 1)
               = (toordinal (replace_day today 1) + 6) mod 7)
    by reflexivity.
  split; [reflexivity|]. split; [reflexivity|].
  split; [cbn [day replace_day]; lia|].
  rewrite weekday_of_day. unfold k. rewrite Hw.
  Z.div_mod_to_equations. lia.
Qed.

(** X1.  The date [check_monthly_restart] computes as the first Monday is
    the first Monday of the month of [today]: it lies in the same month and
    year, on one of the days 1 to 7, it is a Monday, and no earlier day of
    the month is one. *)
Theorem first_monday_is_first (today : datetime) :
  let fm := first_monday_of today in
  year fm = year today /\ month fm = month today /\
  1 <= day fm <= 7 /\
  weekday fm = 0 /\
  (forall n, 1 <= n < day fm -> weekday (replace_day today n) <> 0).
Proof.
  cbv zeta. rewrite first_monday_of_eq.
  set (k := (7 - weekday (replace_day today 1)) mod 7).
  assert (Hk : 0 <= k < 7) by (apply Z.mod_pos_bound; lia).
  assert (Hw : weekday (replace_day today 1)
               = (toordinal (replace_day today 1) + 6) mod 7)
    by reflexivity.
  set (a := toordinal (replace_day today 1) + 6) in *.
  split; [reflexivity|]. split; [reflexivity|].
  split; [cbn [day replace_day]; lia|].
  split.
  - rewrite weekday_of_day. fold a.
    unfold k. rewrite Hw.
    Z.div_mod_to_equations. lia.
  - intros n Hn. rewrite weekday_of_day. fold a.
    cbn [day replace_day] in Hn. unfold k in *. rewrite Hw in *.
    Z.div_mod_to_equations. lia.
Qed.

(** X2.  The monthly restart is due exactly when today is a Monday among
    the first seven days of its month and [last_monthly_restart] is unset
    or lies in another month or year. *)
Theorem monthly_due_iff (st : State) :
  monthly_restart_due st = true <->
  weekday (now (os st)) = 0 /\ 1 <= day (now (os st)) <= 7 /\
  not_restarted_this_month (last_monthly_restart st) (now (os st)) = true.
Proof.
  unfold monthly_restart_due.
  set (today := now (os st)).
  rewrite andb_true_iff, first_monday_of_eq.
  assert (Hsame : same_date today
                    (replace_day today
                       (1 + (7 - weekday (replace_day today 1)) mod 7))
                  = true <->
                  weekday today = 0 /\ 1 <= day today <= 7).
  { unfold same_date; cbn [year month day replace_day].
    rewrite !Z.eqb_refl; cbn [andb].
    rewrite Z.eqb_eq.
    assert (Ht : weekday today
                 = (toordinal (replace_day today 1) + 6 + (day today - 1))
                     mod 7).
    { rewrite <- weekday_of_day. f_equal. destruct today; reflexivity. }
    assert (Hw : weekday (replace_day today 1)
                 = (toordinal (replace_day today 1) + 6) mod 7)
      by reflexivity.
    rewrite Ht, Hw.
    set (a := toordinal (replace_day today 1) + 6).
    split; intros H; Z.div_mod_to_equations; lia. }
  rewrite Hsame. tauto.
Qed.

Lemma next_day_rollover (d : datetime) :
  day d = days_in_month (year d) (month d) ->
  next_day d =
    if month d <? 12 then
      {| year := year d; month := month d + 1; day := 1;
         time_of_day := time_of_day d |}
    else
      {| year := year d + 1; month := 1; day := 1;
         time_of_day := time_of_day d |}.
Proof.
  intros H. unfold next_day.
  destruct (Z.ltb_spec (day d) (days_in_month (year d) (month d))); [lia|].
  reflexivity.
Qed.

(** Thirty-two days after the first of a month lie in the month after. *)
Lemma first_day_next_month_eq (today : datetime) :
  first_day_next_month today =
    if month today <? 12 then
      {| year := year today; month := month today + 1; day := 1;
         time_of_day := time_of_day today |}
    else
      {| year := year today + 1; month := 1; day := 1;
         time_of_day := time_of_day today |}.
Proof.
  unfold first_day_next_month.
  set (first := replace_day today 1).
  pose proof (days_in_month_bounds (year today) (month today)) as Hb.
  set (dim := days_in_month (year today) (month today)) in *.
  assert (H32 : 32%nat = ((32 - Z.to_nat dim) + (1 + (Z.to_nat dim - 1)))%nat)
    by lia.
  rewrite H32, add_days_plus, (add_days_plus first 1).
  rewrite (add_days_in_month first)
    by (change (day first) with 1;
        change (days_in_month (year first) (month first)) with dim; lia).
  change (add_days ?d 1) with (next_day d).
  rewrite next_day_rollover
    by (cbn [year month day time_of_day replace_day first];
        fold dim; lia).
  cbn [year month day time_of_day replace_day first].
  destruct (month today <? 12).
  - rewrite add_days_in_month.
    + reflexivity.
    + cbn [year month day].
      pose proof (days_in_month_bounds (year today) (month today + 1)). lia.
  - rewrite add_days_in_month.
    + reflexivity.
    + cbn [year month day].
      pose proof (days_in_month_bounds (year today + 1) 1). lia.
Qed.

Lemma next_first_monday_eq (today : datetime) :
  next_first_monday today = first_monday_of (first_day_next_month today).
Proof.
  unfold next_first_monday, first_monday_of. cbv zeta.
  rewrite first_day_next_month_eq.
  destruct (month today <? 12); reflexivity.
Qed.

(** X3.  For every date before December 9999 (in that month the date
    arithmetic of [status] leaves the years a [datetime] can hold), the
    date [status] prints as the next monthly restart is the first Monday of
    the month after today's: a date within the years of [datetime], a
    Monday on one of the days 1 to 7 of the following month, in January of
    the following year when today is in December.  It is never a day of the
    current month, also when the first Monday of this month is still to
    come. *)
Theorem next_restart_is_next_month (today : datetime) :
  in_range today ->
  year today < MAXYEAR \/ month today < 12 ->
  let shown := next_first_monday today in
  in_range shown /\
  weekday shown = 0 /\ 1 <= day shown <= 7 /\
  (month today < 12 ->
   year shown = year today /\ month shown = month today + 1) /\
  (month today = 12 ->
   year shown = year today + 1 /\ month shown = 1) /\
  (year shown <> year today \/ month shown <> month today).
Proof.
  unfold in_range, MINYEAR, MAXYEAR. intros [Hyr Hmo] Hlast.
  cbv zeta. rewrite next_first_monday_eq.
  destruct (first_monday_is_first_facts (first_day_next_month today))
    as (Hy & Hm & Hd & Hw).
  unfold in_range, MINYEAR, MAXYEAR.
  split; [|split; [exact Hw|split; [exact Hd|]]];
    rewrite Hy, Hm, first_day_next_month_eq;
    destruct (Z.ltb_spec (month today) 12); cbn [year month];
    repeat split; intros; lia.
Qed.

Lemma next_restart_is_next_month_witness :
  (weekday (next_first_monday Extra.sunday) = 0 /\
   year (next_first_monday Extra.sunday) = 2026 /\
   month (next_first_monday Extra.sunday) = 12) /\
  next_first_monday Extra.sunday
  = {| year := 2026; month := 12; day := 7; time_of_day := 43200 |} /\
  first_monday_of Extra.sunday
  = {| year := 2026; month := 11; day := 2; time_of_day := 43200 |}.
Proof.
  split.
  - assert (Hr : in_range Extra.sunday)
      by (unfold in_range, MINYEAR, MAXYEAR; simpl; lia).
    assert (Hl : year Extra.sunday < MAXYEAR \/ month Extra.sunday < 12)
      by (left; unfold MAXYEAR; simpl; lia).
    destruct (next_restart_is_next_month Extra.sunday Hr Hl)
      as (_ & Hw & _ & Hn & _).
    split; [exact Hw|]. apply Hn. simpl. lia.
  - split; vm_compute; reflexivity.
Defined.

(** ** Starting and stopping all services *)

Lemma services_update_status st : services (update_status st) = services st.
Proof. unfold update_status. destruct (disk_ok (os st)); reflexivity. Qed.

Lemma services_log_if b l m st : services (log_if b l m st) = services st.
Proof. destruct b; reflexivity. Qed.

Lemma start_all_services_eq st :
  services (snd (start_all_services st))
  = entries (for_each Body.start_service (services st) (os st)) /\
  fst (start_all_services st)
  = (successes (for_each Body.start_service (services st) (os st))
     =? length (services st))%nat.
Proof.
  unfold start_all_services. cbv zeta. cbn [fst snd].
  split; [|reflexivity].
  match goal with |- context [if ?c then _ else _] => destruct c end.
  - cbn [services log emit].
    rewrite !services_log_if. cbn [services log emit].
    rewrite services_update_status. reflexivity.
  - rewrite services_update_status. reflexivity.
Qed.

(** [start_service] returns [True] exactly when it leaves the status
    ["running"]; otherwise it leaves ["error"]. *)
Lemma start_ret_running (w : World) (s : Service) :
  (ret (Body.start_service w s) = true <->
   status (svc (Body.start_service w s)) = running) /\
  (status (svc (Body.start_service w s)) = running \/
   status (svc (Body.start_service w s)) = error).
Proof.
  unfold Body.start_service.
  destruct (truthy_pid _ && _); simpl; [intuition|].
  destruct (negb (path_exists _ _)); simpl; [intuition discriminate|].
  destruct (launch _ _); simpl; intuition discriminate.
Qed.

Lemma for_each_successes f l w :
  (forall w s, ret (f w s) = true <-> status (svc (f w s)) = running) ->
  (successes (for_each f l w) <= length l)%nat /\
  (successes (for_each f l w) = length l <->
   Forall (fun e => status (snd e) = running) (entries (for_each f l w))).
Proof.
  intros Hf. revert w.
  induction l as [|[id s] l IH]; intros w; simpl.
  - split; [lia|]. split; auto.
  - destruct (IH (world (f w s))) as [Hle Hiff].
    specialize (Hf w s).
    destruct (ret (f w s)).
    + split; [lia|]. split.
      * intros H. constructor; [apply Hf; reflexivity|].
        apply Hiff. lia.
      * intros H. inversion H as [|? ? _ Hrest]; subst.
        apply Hiff in Hrest. simpl. lia.
    + split; [lia|]. split.
      * intros H. lia.
      * intros H. inversion H as [|? ? Hs _]; subst. simpl in Hs.
        apply Hf in Hs. discriminate.
Qed.

Lemma for_each_all (P : Service -> Prop) f l w :
  (forall w s, P (svc (f w s))) ->
  Forall (fun e => P (snd e)) (entries (for_each f l w)).
Proof.
  intros Hf. revert w.
  induction l as [|[id s] l IH]; intros w; simpl; constructor; auto.
  apply Hf.
Qed.

(** X4.  [start_all_services] returns [True] exactly when every service
    has the status ["running"] afterwards; whatever it returns, every
    service is then ["running"] or ["error"], and the services are the same
    ones in the same order. *)
Theorem start_all_result (st : State) :
  let r := start_all_services st in
  (fst r = true <->
   Forall (fun e => status (snd e) = running) (services (snd r))) /\
  Forall (fun e => status (snd e) = running \/ status (snd e) = error)
    (services (snd r)) /\
  map fst (services (snd r)) = map fst (services st).
Proof.
  cbv zeta.
  destruct (start_all_services_eq st) as [Hs Hr].
  rewrite Hs, Hr.
  destruct (for_each_successes Body.start_service (services st) (os st)
              (fun w s => proj1 (start_ret_running w s))) as [_ Hiff].
  split; [|split].
  - rewrite Nat.eqb_eq. exact Hiff.
  - apply (for_each_all
             (fun s => status s = running \/ status s = error)).
    intros w s. apply start_ret_running.
  - rewrite for_each_for_first.
    apply (for_first_keys Body.start_service start_tame).
Qed.

Lemma signals_app (a b : list event) :
  signals (a ++ b) = (signals a + signals b)%nat.
Proof.
  induction a as [|e a IH]; simpl; auto.
  destruct e; simpl; rewrite IH; auto.
Qed.

Lemma alive_after_exit (p : Z) (c : Z) (w : World) (s : Service) :
  Body.process_alive w s = false ->
  Body.process_alive (set_proc p (Some c) w) s = false.
Proof.
  unfold Body.process_alive. destruct (process s) as [h|]; auto.
  simpl. destruct (popen_pid h =? p); auto.
Qed.

(** A stop that does not raise leaves the service stopped, with no pid and
    no live process, and revives no other process. *)
Lemma stop_clean (w : World) (s : Service) :
  stops_cleanly w ->
  let r := Body.stop_service w s in
  ret r = true /\ status (svc r) = stopped /\ pid (svc r) = None /\
  Body.process_alive (world r) (svc r) = false /\
  stops_cleanly (world r) /\
  (forall s', Body.process_alive w s' = false ->
              Body.process_alive (world r) s' = false).
Proof.
  intros Hc. cbv zeta.
  unfold Body.stop_service.
  destruct (process s) as [h|] eqn:Hp.
  - destruct (poll w (popen_pid h)) eqn:Hpoll.
    + simpl. unfold Body.process_alive; simpl. rewrite Hp, Hpoll. auto 7.
    + specialize (Hc (popen_pid h)) as Hg.
      destruct (graceful w (popen_pid h)); [congruence| |];
        simpl; (repeat split; auto using alive_after_exit).
  - simpl. unfold Body.process_alive at 1; simpl. rewrite Hp. auto 7.
Qed.

Lemma stop_loop_clean l w :
  stops_cleanly w ->
  let lp := for_each Body.stop_service l w in
  Forall (fun e => down (after lp) (snd e)) (entries lp) /\
  successes lp = length l /\
  (forall s', Body.process_alive w s' = false ->
              Body.process_alive (after lp) s' = false).
Proof.
  revert w. induction l as [|[id s] l IH]; intros w Hc; simpl.
  - auto.
  - destruct (stop_clean w s Hc) as (Hr & Hs & Hp & Ha & Hc' & Hk).
    destruct (IH _ Hc') as (Hall & Hn & Hk').
    rewrite Hr. split; [|split].
    + constructor; [|exact Hall]. simpl. unfold down. auto.
    + simpl. lia.
    + auto.
Qed.

Lemma stop_all_down (st : State) :
  stops_cleanly (os st) ->
  Forall (fun e => down (os (stop_all_services st)) (snd e))
    (services (stop_all_services st)).
Proof.
  intros Hc. unfold stop_all_services.
  cbn [services log emit os].
  rewrite services_update_status.
  destruct (stop_loop_clean (services st) (os st) Hc) as (Hall & _ & _).
  cbv zeta in Hall.
  unfold update_status. cbn [os loop_state services log emit].
  destruct (disk_ok _); exact Hall.
Qed.





Lemma set_stopped_id (s : Service) :
  status s = stopped -> pid s = None ->
  s |> set_status stopped |> set_pid None = s.
Proof. intros H1 H2. destruct s; simpl in *; subst; reflexivity. Qed.

(** Stopping services that have no live process sends no signal, launches
    nothing and leaves the world alone; records that were down stay as
    they are. *)
Lemma stop_loop_not_alive l w :
  Forall (fun e => Body.process_alive w (snd e) = false) l ->
  let lp := for_each Body.stop_service l w in
  after lp = w /\ signals (caused lp) = 0%nat /\
  popens (caused lp) = 0%nat /\
  (Forall (fun e => down w (snd e)) l -> entries lp = l).
Proof.
  induction 1 as [|[id s] l Hs Hl IH]; simpl.
  - auto.
  - simpl in Hs. rewrite (stop_not_alive w s Hs). simpl.
    cbv zeta in IH. destruct IH as (Ha & Hsig & Hpop & Hent).
    repeat split; auto.
    intros Hd. inversion Hd as [|? ? (H1 & H2 & _) Hd']; subst.
    simpl in *. rewrite (Hent Hd'), set_stopped_id; auto.
Qed.

Lemma stop_all_not_alive (st : State) :
  Forall (fun e => Body.process_alive (os st) (snd e) = false)
    (services st) ->
  signals (trace (stop_all_services st)) = signals (trace st) /\
  popens (trace (stop_all_services st)) = popens (trace st) /\
  (Forall (fun e => down (os st) (snd e)) (services st) ->
   services (stop_all_services st) = services st).
Proof.
  intros Hall.
  destruct (stop_loop_not_alive (services st) (os st) Hall)
    as (Ha & Hsig & Hpop & Hent).
  cbv zeta in *.
  unfold stop_all_services.
  cbn [services log emit os trace].
  rewrite services_update_status.
  unfold update_status.
  cbn [os loop_state services log emit trace].
  destruct (disk_ok _);
    cbn [services log emit os trace set_os loop_state];
    rewrite !signals_app, !popens_app, Hsig, Hpop; simpl;
    repeat split; auto; lia.
Qed.

(** X6.  When no stop raises, a second [stop_all_services] right after the
    first (as the [finally] clause of [run] performs after the signal
    handler has stopped the services) sends no stop or kill signal,
    launches nothing and leaves every service record as it was. *)
Theorem stop_all_twice (st : State) :
  stops_cleanly (os st) ->
  let once := stop_all_services st in
  let twice := stop_all_services once in
  signals (trace twice) = signals (trace once) /\
  popens (trace twice) = popens (trace once) /\
  services twice = services once.
Proof.
  intros Hc. cbv zeta.
  pose proof (stop_all_down st Hc) as Hdown.
  assert (Hna : Forall
                  (fun e => Body.process_alive
                              (os (stop_all_services st)) (snd e) = false)
                  (services (stop_all_services st))).
  { eapply Forall_impl; [|exact Hdown]. intros e (_ & _ & H). exact H. }
  destruct (stop_all_not_alive _ Hna) as (H1 & H2 & H3).
  auto.
Qed.

Lemma stop_all_twice_witness :
  signals (trace (stop_all_services
                    (stop_all_services (execute [AStartAll] Sample.fresh))))
  = 3%nat /\
  signals (trace (stop_all_services
                    (stop_all_services (execute [AStartAll] Sample.fresh))))
  = signals (trace (stop_all_services (execute [AStartAll] Sample.fresh))).
Proof.
  split; [vm_compute; reflexivity|].
  apply (stop_all_twice (execute [AStartAll] Sample.fresh)).
  intros p. simpl. discriminate.
Defined.

Lemma start_sends_no_signal (w : World) (s : Service) :
  signals (evs (Body.start_service w s)) = 0%nat.
Proof.
  unfold Body.start_service. body_cases; reflexivity.
Qed.

Lemma start_loop_no_signal l w :
  signals (caused (for_each Body.start_service l w)) = 0%nat.
Proof.
  revert w. induction l as [|[id s] l IH]; intros w; simpl; auto.
  rewrite signals_app, start_sends_no_signal, IH. reflexivity.
Qed.

Lemma signals_log_if b l m st :
  signals (trace (log_if b l m st)) = signals (trace st).
Proof.
  destruct b; simpl; auto. rewrite signals_app; simpl. lia.
Qed.

Lemma signals_update_status st :
  signals (trace (update_status st)) = signals (trace st).
Proof.
  unfold update_status. destruct (disk_ok _); simpl; auto.
  rewrite signals_app; simpl. lia.
Qed.

Lemma start_all_no_signal (st : State) :
  signals (trace (snd (start_all_services st))) = signals (trace st).
Proof.
  unfold start_all_services. cbv zeta. cbn [snd].
  match goal with |- context [if ?c then _ else _] => destruct c end.
  - cbn [trace log emit]. rewrite signals_app.
    rewrite !signals_log_if.
    cbn [trace log emit]. rewrite signals_app, signals_update_status.
    cbn [trace log emit loop_state].
    rewrite !signals_app, start_loop_no_signal. simpl. lia.
  - rewrite signals_update_status.
    cbn [trace log emit loop_state].
    rewrite !signals_app, start_loop_no_signal. simpl. lia.
Qed.

Lemma init_not_alive base_dir w w' :
  Forall (fun e => Body.process_alive w' (snd e) = false)
    (services (init base_dir w)).
Proof. repeat constructor. Qed.

(** X7.  The commands [stop] and [restart] of the command line act on a
    manager that was just built and holds no process: [stop] sends no stop
    or kill signal and launches nothing, whatever is running on the
    machine, and [restart] sends no signal either before it starts the
    services. *)
Theorem cli_sends_no_signal (prog arg : string) (rest : list string)
  (base_dir : string) (w : World) :
  (lower arg = "stop" ->
   exists m,
     main (prog :: arg :: rest) base_dir w = RanStopAll m /\
     signals (trace m) = 0%nat /\ popens (trace m) = 0%nat) /\
  (lower arg = "restart" ->
   exists m,
     main (prog :: arg :: rest) base_dir w = RanRestartAll m /\
     signals (trace m) = 0%nat).
Proof.
  split; intros Hl; unfold main; cbv zeta; rewrite Hl; simpl String.eqb;
    cbv iota; eexists; (split; [reflexivity|]).
  - destruct (stop_all_not_alive (init base_dir w)
                (init_not_alive base_dir w w)) as (H1 & H2 & _).
    rewrite H1, H2. auto.
  - unfold restart_all_services.
    rewrite start_all_no_signal.
    cbn [trace sleep emit]. rewrite signals_app.
    destruct (stop_all_not_alive (log INFO MsgRestartingAll (init base_dir w))
                (init_not_alive base_dir w w)) as (H1 & _).
    rewrite H1. reflexivity.
Qed.

Lemma cli_sends_no_signal_witness :
  exists m,
    main ["master_service_manager.py"; "STOP"] "/srv" Sample.world_running
    = RanStopAll m /\
    signals (trace m) = 0%nat /\ popens (trace m) = 0%nat.
Proof.
  exact (proj1 (cli_sends_no_signal "master_service_manager.py" "STOP" []
                  "/srv" Sample.world_running) eq_refl).
Defined.

(** ** Restarting one service *)

Lemma stop_live (w : World) (s : Service) (h : Popen) :
  process s = Some h -> poll w (popen_pid h) = None ->
  graceful w (popen_pid h) <> SignalRaises ->
  let r := Body.stop_service w s in
  svc r = (s |> set_process None |> set_pid None |> set_status stopped) /\
  (1 <= signals (evs r))%nat /\ popens (evs r) = 0%nat /\
  path_exists (world r) = path_exists w /\ launch (world r) = launch w.
Proof.
  intros Hp Hpoll Hg. cbv zeta. unfold Body.stop_service.
  rewrite Hp, Hpoll.
  destruct (graceful w (popen_pid h)); [congruence| |]; simpl;
    repeat split; lia.
Qed.

(** X8.  [restart_service] on a service with a live process, when the stop
    does not raise and the script exists: the process is signalled first,
    then come the two seconds of pause, then exactly one launch.  The call
    returns what the launch gives: when the new process is alive after the
    five seconds the service is ["running"] under the new pid with one more
    restart counted; otherwise the call returns [False] and the service is
    left down, ["error"] with no pid and no [Popen] object. *)
Theorem restart_replaces_process (st : State) (id : string) (s : Service)
  (h : Popen) :
  lookup id (services st) = Some s ->
  process s = Some h -> poll (os st) (popen_pid h) = None ->
  graceful (os st) (popen_pid h) <> SignalRaises ->
  path_exists (os st) (script_path s) = true ->
  exists b st1 s1 before after,
    restart_service id st = Some (b, st1) /\
    lookup id (services st1) = Some s1 /\
    trace st1 = trace st ++ before ++ [EvSleep 2] ++ after /\
    (1 <= signals before)%nat /\ popens before = 0%nat /\
    signals after = 0%nat /\ popens after = 1%nat /\
    match launch (os st) (script_path s) with
    | StillRunning q =>
        b = true /\ status s1 = running /\ pid s1 = Some q /\
        process s1 = Some {| popen_pid := q |} /\
        restart_count s1 = (restart_count s + 1)%nat /\
        consecutive_failures s1 = 0%nat
    | _ =>
        b = false /\ status s1 = error /\ pid s1 = None /\
        process s1 = None /\ restart_count s1 = restart_count s /\
        consecutive_failures s1 = (consecutive_failures s + 1)%nat
    end.
Proof.
  intros Hl Hp Hpoll Hg He.
  destruct (stop_live (os st) s h Hp Hpoll Hg)
    as (Hs & Hsig & Hpop & Hpe & Hla).
  cbv zeta in *.
  unfold restart_service. rewrite (call_some _ _ _ _ Hl).
  unfold Body.restart_service. cbv zeta.
  set (r1 := Body.stop_service (os st) s) in *.
  rewrite (start_launch (world r1) (svc r1));
    [| rewrite Hs; reflexivity | rewrite Hpe, Hs; exact He].
  cbv zeta.
  assert (Hpath : launch (world r1) (script_path (svc r1))
                  = launch (os st) (script_path s))
    by (rewrite Hla, Hs; reflexivity).
  rewrite Hpath.
  destruct (launch (os st) (script_path s)) as [|q|q code output];
    cbn [ret svc world evs];
    eexists _, _, _, (EvLog INFO (MsgRestarting (name s)) :: evs r1), _;
    (split; [reflexivity|]);
    (split; [cbn [services]; apply lookup_update_same; congruence|]);
    (split; [cbn [trace]; reflexivity|]);
    (split; [cbn [signals]; exact Hsig|]);
    (split; [cbn [popens]; exact Hpop|]);
    rewrite Hs.
  - repeat split.
  - repeat split.
  - destruct (String.eqb output ""); repeat split.
Qed.

Lemma restart_replaces_process_witness :
  exists st1 s1,
    restart_service "discord_bot" (execute [AStart "discord_bot"] Sample.fresh)
    = Some (true, st1) /\
    lookup "discord_bot" (services st1) = Some s1 /\
    status s1 = running /\ restart_count s1 = 2%nat.
Proof.
  destruct (restart_replaces_process
              (execute [AStart "discord_bot"] Sample.fresh) "discord_bot"
              Sample.bot_running {| popen_pid := 4242 |}
              eq_refl eq_refl eq_refl
              ltac:(simpl; discriminate) eq_refl)
    as (b & st1 & s1 & bef & aft & H1 & H2 & _ & _ & _ & _ & _ & H8).
  change (b = true /\ status s1 = running /\ pid s1 = Some 4242 /\
          process s1 = Some {| popen_pid := 4242 |} /\
          restart_count s1 = 2%nat /\ consecutive_failures s1 = 0%nat) in H8.
  destruct H8 as (Hb & Hs & _ & _ & Hc & _).
  subst b. exists st1, s1. auto.
Defined.

(** X9.  [restart_service] when the stop raises and the recorded process
    is still running: the result of the stop is dropped, [start_service]
    finds the service already running, and the call returns [True]
    although nothing was stopped or launched; the restart count is
    unchanged. *)
Theorem restart_after_failed_stop (st : State) (id : string) (s : Service)
  (h : Popen) :
  lookup id (services st) = Some s ->
  process s = Some h -> poll (os st) (popen_pid h) = None ->
  graceful (os st) (popen_pid h) = SignalRaises ->
  already_running (os st) s = true ->
  exists st1 s1,
    restart_service id st = Some (true, st1) /\
    lookup id (services st1) = Some s1 /\
    s1 = (s |> set_status running |> set_consecutive_failures 0%nat) /\
    process s1 = Some h /\ pid s1 = pid s /\
    restart_count s1 = restart_count s /\
    os st1 = os st /\
    popens (trace st1) = popens (trace st).
Proof.
  intros Hl Hp Hpoll Hg Hr.
  unfold restart_service. rewrite (call_some _ _ _ _ Hl).
  unfold Body.restart_service, Body.stop_service. cbv zeta.
  rewrite Hp, Hpoll, Hg. cbn [ret svc world evs].
  unfold Body.start_service.
  unfold already_running in Hr. rewrite Hr.
  cbn [ret svc world evs].
  eexists _, _. split; [reflexivity|].
  cbn [services os trace].
  split; [apply lookup_update_same; congruence|].
  repeat split; auto.
  rewrite popens_app. simpl. lia.
Qed.

Lemma restart_after_failed_stop_witness :
  exists st1 s1,
    restart_service "discord_bot"
      (execute [AStart "discord_bot"; AEnv Extra.stubborn] Sample.fresh)
    = Some (true, st1) /\
    lookup "discord_bot" (services st1) = Some s1 /\
    restart_count s1 = 1%nat /\
    popens (trace st1) = 1%nat.
Proof.
  destruct (restart_after_failed_stop
              (execute [AStart "discord_bot"; AEnv Extra.stubborn]
                 Sample.fresh)
              "discord_bot" Sample.bot_running {| popen_pid := 4242 |}
              eq_refl eq_refl eq_refl eq_refl eq_refl)
    as (st1 & s1 & H1 & H2 & _ & _ & _ & H3 & _ & H4).
  exists st1, s1. auto.
Defined.

(** ** Status, pid and failure count along a run *)

Lemma pid_matches_status_stable : stable pid_matches_status.
Proof.
  unfold stable, pid_matches_status.
  split; [|split]; intros w s H.
  - destruct (start_ret_running w s) as [_ [-> | ->]];
      intros [|]; discriminate.
  - unfold Body.stop_service.
    body_cases; simpl; auto.
  - unfold Body.check_service_health. simpl.
    body_cases; simpl; auto.
    intros [|]; discriminate.
Qed.

Lemma failures_match_status_stable : stable failures_match_status.
Proof.
  unfold stable, failures_match_status.
  split; [|split]; intros w s [H1 H2].
  - unfold Body.start_service.
    body_cases; simpl; (split; [intros; try discriminate; reflexivity|]);
      intros [|]; try discriminate; lia.
  - unfold Body.stop_service.
    body_cases; simpl; auto;
      (split; [intros; discriminate | intros [|]; discriminate]).
  - unfold Body.check_service_health. simpl.
    body_cases; simpl; auto;
      (split; [intros; try discriminate; reflexivity|]);
      intros [|]; try discriminate; lia.
Qed.

(** X10.  Whatever methods were called and whatever the environment did
    since [__init__]: a service whose status is ["stopped"] or ["died"] has
    no pid, a service whose status is ["running"] has no consecutive
    failure counted, and one whose status is ["error"] or ["died"] has at
    least one. *)
Theorem status_agrees_along_execution (base_dir : string) (w : World)
  (acts : list action) (id : string) (s : Service) :
  lookup id (services (execute acts (init base_dir w))) = Some s ->
  ((status s = stopped \/ status s = died) -> pid s = None) /\
  (status s = running -> consecutive_failures s = 0%nat) /\
  (status s = error \/ status s = died ->
   (1 <= consecutive_failures s)%nat).
Proof.
  intros Hl.
  assert (H1 : pid_matches_status s).
  { apply (lookup_all pid_matches_status id _ s
             (execute_stable pid_matches_status acts (init base_dir w)
                pid_matches_status_stable
                ltac:(repeat constructor)) Hl). }
  assert (H2 : failures_match_status s).
  { apply (lookup_all failures_match_status id _ s
             (execute_stable failures_match_status acts (init base_dir w)
                failures_match_status_stable
                ltac:(repeat constructor; simpl; intros;
                      try discriminate; intuition discriminate)) Hl). }
  destruct H2 as [H2 H3]. auto.
Qed.

Lemma status_agrees_along_execution_witness :
  match lookup "web_server"
          (services (execute [AStartAll; ASetRunning true; ATick]
                       (init "/srv" Extra.one_script))) with
  | Some s => status s = error /\ (1 <= consecutive_failures s)%nat
  | None => False
  end.
Proof.
  destruct (lookup "web_server"
              (services (execute [AStartAll; ASetRunning true; ATick]
                           (init "/srv" Extra.one_script)))) as [s|] eqn:E.
  - pose proof (status_agrees_along_execution _ _ _ _ _ E) as (_ & _ & H).
    vm_compute in E. injection E as <-.
    split; [reflexivity | apply H; left; reflexivity].
  - vm_compute in E. discriminate.
Defined.

(** ** Launches, script by script *)

Lemma launches_of_app path (a b : list event) :
  launches_of path (a ++ b) = (launches_of path a + launches_of path b)%nat.
Proof.
  induction a as [|e a IH]; simpl; auto.
  destruct e; simpl; rewrite IH; auto. lia.
Qed.

Lemma launches_of_log_if path b l m st :
  launches_of path (trace (log_if b l m st)) = launches_of path (trace st).
Proof.
  destruct b; simpl; auto. rewrite launches_of_app; simpl. lia.
Qed.

Lemma launches_of_update_status path st :
  launches_of path (trace (update_status st)) = launches_of path (trace st).
Proof.
  unfold update_status. destruct (disk_ok _); simpl; auto.
  rewrite launches_of_app; simpl. lia.
Qed.

(** [start_service] launches the script of its service and no other, at
    most once. *)
Lemma start_launches path (w : World) (s : Service) :
  (launches_of path (evs (Body.start_service w s))
   <= if (script_path s =? path)%string then 1 else 0)%nat.
Proof.
  unfold Body.start_service.
  generalize (script_path s). intros sp.
  body_cases; simpl; destruct (sp =? path)%string; lia.
Qed.

Lemma health_launches path (w : World) (s : Service) :
  launches_of path (evs (Body.check_service_health w s)) = 0%nat /\
  script_path (svc (Body.check_service_health w s)) = script_path s.
Proof.
  unfold Body.check_service_health.
  destruct (negb (truthy_pid _)); simpl; auto.
  destruct (negb (is_process_running _ _)); simpl; auto.
Qed.

(** So does the loop body of [monitor_services], which sends no signal
    either. *)
Lemma monitor_launches path (w : World) (s : Service) :
  (launches_of path (evs (Body.monitor_service w s))
   <= if (script_path s =? path)%string then 1 else 0)%nat.
Proof.
  destruct (health_launches path w s) as [Hl Hp].
  unfold Body.monitor_service.
  destruct (ret (Body.check_service_health w s)); [rewrite Hl; lia|].
  destruct (status_eqb _ died); [|rewrite Hl; lia].
  destruct (Nat.leb _ 3); cbn [evs];
    rewrite !launches_of_app, Hl; simpl.
  - pose proof (start_launches path
                  (world (Body.check_service_health w s))
                  (svc (Body.check_service_health w s))) as Hs.
    rewrite Hp in Hs. lia.
  - lia.
Qed.

(** A loop over the services whose body launches the script of its service
    at most once launches each script at most as often as there are
    services with that script. *)
Lemma loop_launches path f l w :
  (forall w s,
     (launches_of path (evs (f w s))
      <= if (script_path s =? path)%string then 1 else 0)%nat) ->
  (launches_of path (caused (for_each f l w)) <= configured_with path l)%nat.
Proof.
  intros Hf. revert w. unfold configured_with.
  induction l as [|[id s] l IH]; intros w; simpl; [lia|].
  rewrite launches_of_app.
  specialize (Hf w s). specialize (IH (world (f w s))).
  destruct (script_path s =? path)%string; simpl; lia.
Qed.

Lemma loop_no_signal f l w :
  (forall w s, signals (evs (f w s)) = 0%nat) ->
  signals (caused (for_each f l w)) = 0%nat.
Proof.
  intros Hf. revert w.
  induction l as [|[id s] l IH]; intros w; simpl; auto.
  rewrite signals_app, Hf, IH. reflexivity.
Qed.

Lemma monitor_launch_bound (w : World) (s : Service) :
  (popens (evs (Body.monitor_service w s)) <= 1)%nat /\
  signals (evs (Body.monitor_service w s)) = 0%nat.
Proof.
  destruct (health_events_no_sleep w s) as [_ Hp].
  assert (Hg : signals (evs (Body.check_service_health w s)) = 0%nat).
  { unfold Body.check_service_health. body_cases; reflexivity. }
  unfold Body.monitor_service.
  destruct (ret (Body.check_service_health w s)); [rewrite Hp, Hg; lia|].
  destruct (status_eqb _ died); [|rewrite Hp, Hg; lia].
  destruct (Nat.leb _ 3); cbn [evs];
    rewrite !popens_app, !signals_app, Hp, Hg; simpl.
  - pose proof (start_popens_le_1 (world (Body.check_service_health w s))
                  (svc (Body.check_service_health w s))).
    rewrite start_sends_no_signal. lia.
  - lia.
Qed.

Lemma launches_le_popens path (tr : list event) :
  (launches_of path tr <= popens tr)%nat.
Proof.
  induction tr as [|e tr IH]; simpl; [lia|].
  destruct e; simpl; try lia.
  destruct (String.eqb _ _); lia.
Qed.

(** ** Services the loop leaves alone *)

Lemma dormant_pass (w : World) (s : Service) :
  dormant s ->
  svc (Body.monitor_service w s) = set_last_health_check (Some (now w)) s /\
  world (Body.monitor_service w s) = w /\
  popens (evs (Body.monitor_service w s)) = 0%nat /\
  signals (evs (Body.monitor_service w s)) = 0%nat.
Proof.
  intros [Hp Hd].
  unfold Body.monitor_service, Body.check_service_health.
  cbn [pid set_last_health_check]. rewrite Hp. cbn [negb ret svc world evs].
  cbn [status consecutive_failures set_last_health_check].
  destruct (status_eqb (status s) died) eqn:Es; [|auto].
  destruct (Nat.leb_spec (consecutive_failures s) 3); [|auto].
  destruct Hd as [Hd|Hd]; [|lia].
  destruct (status s); try discriminate. congruence.
Qed.

Lemma script_path_stable (c : string) :
  stable (fun s => script_path s = c).
Proof.
  unfold script_path.
  split; [|split]; intros w s H;
    [unfold Body.start_service | unfold Body.stop_service
     | unfold Body.check_service_health];
    body_cases; simpl; exact H.
Qed.

Lemma set_last_health_check_same (s : Service) :
  set_last_health_check (last_health_check s) s = s.
Proof. destruct s; reflexivity. Qed.

(** The loop of [monitor_services] over the services: the record of a
    service it leaves alone changes in the time stamp of the check only,
    and a script whose services are all left alone is not launched. *)
Lemma loop_dormant_record l w id s :
  lookup id l = Some s -> dormant s ->
  exists t,
    lookup id (entries (for_each Body.monitor_service l w))
    = Some (set_last_health_check t s).
Proof.
  revert w. induction l as [|[k x] l IH]; intros w; simpl; [discriminate|].
  destruct (String.eqb k id).
  - intros [= <-] Hd. destruct (dormant_pass w x Hd) as (Hs & _).
    rewrite Hs. eauto.
  - intros Hl Hd. eauto.
Qed.

Lemma loop_dormant_script path l w :
  Forall (fun e => script_path (snd e) = path -> dormant (snd e)) l ->
  let lp := for_each Body.monitor_service l w in
  Forall (fun e => script_path (snd e) = path -> dormant (snd e))
    (entries lp) /\
  launches_of path (caused lp) = 0%nat.
Proof.
  intros Hall. revert w. cbv zeta.
  induction Hall as [|[k x] l Hx Hl IH]; intros w; simpl; [auto|].
  destruct (IH (world (Body.monitor_service w x))) as [IH1 IH2].
  simpl in Hx. rewrite launches_of_app, IH2. split.
  - constructor; [|exact IH1]. simpl.
    rewrite (tame_stable _ monitor_tame _
               (script_path_stable (script_path x)) w x eq_refl).
    intros Hp. destruct (dormant_pass w x (Hx Hp)) as (Hs & _).
    rewrite Hs. exact (Hx Hp).
  - pose proof (monitor_launches path w x) as Hb.
    pose proof (launches_le_popens path (evs (Body.monitor_service w x)))
      as Hle.
    destruct (String.eqb_spec (script_path x) path) as [Hp|Hp]; [|lia].
    destruct (dormant_pass w x (Hx Hp)) as (_ & _ & H0 & _). lia.
Qed.

(** A pass that triggers no monthly restart is the loop over the services
    in some world, followed by events that launch nothing. *)
Lemma pass_without_monthly_restart (st : State) :
  job_due (os st) && monthly_restart_due st = false ->
  exists w post,
    services (monitor_iteration st)
    = entries (for_each Body.monitor_service (services st) w) /\
    trace (monitor_iteration st)
    = (trace st ++ caused (for_each Body.monitor_service (services st) w))
      ++ post /\
    popens post = 0%nat.
Proof.
  intros Hq. unfold monitor_iteration, run_pending, check_monthly_restart.
  destruct (job_due (os st)); simpl in Hq; [rewrite Hq|]; cbv zeta;
    unfold update_status;
    cbn [services os trace loop_state set_os sleep emit disk_ok set_job_due];
    match goal with |- context [if ?c then _ else _] => destruct c end;
    cbn [services os trace loop_state set_os sleep emit log];
    eexists _, _; (split; [reflexivity|]);
    rewrite <- ?app_assoc; (split; [reflexivity|]); reflexivity.
Qed.

Lemma last_one_filtered {A : Type} (f : A -> bool) (l : list A) (a b : A) :
  length (filter f l) = 1%nat -> In a l -> f a = true ->
  In b l -> f b = true -> a = b.
Proof.
  intros Hn Ha Hfa Hb Hfb.
  assert (Ia : In a (filter f l)) by (apply filter_In; auto).
  assert (Ib : In b (filter f l)) by (apply filter_In; auto).
  destruct (filter f l) as [|x [|y r]]; simpl in *; try discriminate.
  destruct Ia as [<-|[]], Ib as [<-|[]]. reflexivity.
Qed.

Lemma lookup_In id l s : lookup id l = Some s -> exists k, In (k, s) l.
Proof.
  induction l as [|[k x] l IH]; simpl; [discriminate|].
  destruct (String.eqb k id).
  - intros [= <-]. eauto.
  - intros H. destruct (IH H) as [k' Hk]. eauto.
Qed.

Lemma dormant_run_record acts : forall st id s,
  loop_without_monthly_restart acts st ->
  lookup id (services st) = Some s -> dormant s ->
  exists t,
    lookup id (services (execute acts st))
    = Some (set_last_health_check t s).
Proof.
  induction acts as [|a acts IH]; intros st id s Hq Hl Hd.
  - exists (last_health_check s).
    rewrite set_last_health_check_same. exact Hl.
  - rewrite execute_cons. destruct Hq as [Ha Hq].
    destruct a; try contradiction.
    + (* a pass of the loop *)
      cbn [step] in *. destruct (running_flag st); [|eauto].
      destruct (pass_without_monthly_restart st Ha) as (w & post & Hs & _).
      destruct (loop_dormant_record (services st) w id s Hl Hd) as [t Ht].
      rewrite <- Hs in Ht.
      destruct (IH _ id _ Hq Ht Hd) as [t' Ht'].
      exists t'. exact Ht'.
    + (* the environment changes *)
      cbn [step] in *. apply (IH _ id s Hq); assumption.
Qed.

Lemma dormant_run_script path acts : forall st,
  loop_without_monthly_restart acts st ->
  Forall (fun e => script_path (snd e) = path -> dormant (snd e))
    (services st) ->
  launches_of path (trace (execute acts st)) = launches_of path (trace st).
Proof.
  induction acts as [|a acts IH]; intros st Hq Hall; [reflexivity|].
  rewrite execute_cons. destruct Hq as [Ha Hq].
  destruct a; try contradiction.
  - cbn [step] in *. destruct (running_flag st); [|auto].
    destruct (pass_without_monthly_restart st Ha)
      as (w & post & Hs & Ht & Hp).
    destruct (loop_dormant_script path (services st) w Hall) as [H1 H2].
    cbv zeta in H1, H2. rewrite <- Hs in H1.
    rewrite (IH _ Hq H1), Ht, !launches_of_app, H2.
    pose proof (launches_le_popens path post). lia.
  - cbn [step] in *. rewrite (IH _ Hq); [reflexivity | exact Hall].
Qed.

(** X11.  A service with no recorded pid whose status is not ["died"], or
    is ["died"] with more than three failures counted, is never started by
    the monitoring loop as long as no monthly restart is triggered:
    through any number of passes of the loop, with any changes of the
    environment between them, its record changes in the time stamp of the
    last health check only (status, pid, [Popen] object, failure count,
    restart count and last-restart stamp stay), and when no other service
    is configured with its script, that script is not launched.  So a
    service whose start failed (["error"]) is not retried, and neither is
    one that died more than three times in a row. *)
Theorem dormant_never_started (acts : list action) (st : State)
  (id : string) (s : Service) :
  loop_without_monthly_restart acts st ->
  lookup id (services st) = Some s ->
  dormant s ->
  (exists t,
     lookup id (services (execute acts st))
     = Some (set_last_health_check t s)) /\
  (configured_with (script_path s) (services st) = 1%nat ->
   launches_of (script_path s) (trace (execute acts st))
   = launches_of (script_path s) (trace st)).
Proof.
  intros Hq Hl Hd. split; [exact (dormant_run_record acts st id s Hq Hl Hd)|].
  intros Hone. apply dormant_run_script; [exact Hq|].
  destruct (lookup_In _ _ _ Hl) as [k Hin].
  apply Forall_forall. intros [k' s'] Hin' Hp. simpl in *.
  assert (E : (k, s) = (k', s')).
  { apply (last_one_filtered
             (fun e => (script_path (snd e) =? script_path s)%string)
             (services st)); auto.
    - simpl. apply String.eqb_refl.
    - simpl. apply String.eqb_eq. exact Hp. }
  injection E as _ <-. exact Hd.
Qed.

Lemma dormant_never_started_witness :
  let st := execute [AStartAll; ASetRunning true]
              (set_os Extra.one_script Sample.fresh) in
  let acts := [ATick; AEnv (Sample.child_exits 4242 1); ATick; ATick] in
  (exists t,
     lookup "web_server" (services (execute acts st))
     = Some (set_last_health_check t Extra.failed_web)) /\
  launches_of "/srv/DBSBMWEB/flask_service.py" (trace (execute acts st))
  = 0%nat.
Proof.
  cbv zeta.
  assert (Hd : dormant Extra.failed_web)
    by (split; [reflexivity | left; discriminate]).
  assert (Hq : loop_without_monthly_restart
                 [ATick; AEnv (Sample.child_exits 4242 1); ATick; ATick]
                 (execute [AStartAll; ASetRunning true]
                    (set_os Extra.one_script Sample.fresh)))
    by (vm_compute; auto).
  destruct (dormant_never_started _ _ "web_server" Extra.failed_web Hq
              eq_refl Hd) as [H1 H2].
  split; [exact H1|].
  refine (eq_trans (H2 eq_refl) _). vm_compute. reflexivity.
Defined.

(** ** The status file after a pass *)

Lemma status_data_shows (l : list (string * Service)) :
  Forall2 shows l (map (fun e => (fst e, status_entry (snd e))) l).
Proof.
  induction l as [|e l IH]; simpl; constructor; [|exact IH].
  unfold shows; simpl. auto 10.
Qed.

Lemma pass_status_file (st : State) :
  disk_ok (os st) = true ->
  status_file (os (monitor_iteration st))
  = Some (status_data (monitor_iteration st)).
Proof.
  intros Hd.
  unfold monitor_iteration. cbv zeta.
  destruct (run_pending_cases st) as [Hs _].
  pose proof (kept_for_each Body.monitor_service (run_pending st)
                monitor_tame) as [Ks _].
  set (st2 := loop_state (run_pending st)
                (for_each Body.monitor_service (services (run_pending st))
                   (os (run_pending st)))) in *.
  assert (Hst : steady st st2) by (eapply steady_trans; eauto).
  unfold update_status.
  rewrite (steady_disk _ _ Hst), Hd. reflexivity.
Qed.

(** X12.  When the status file can be written, the file a pass of the
    monitoring loop leaves shows the services as the pass leaves them,
    restarts made during the pass and a monthly restart included: it has
    one entry for each service, under the same keys in the same order, and
    the entry carries the name, status, pid, restart count, last-restart
    stamp, last-health-check stamp and failure count of the service record
    at the end of the pass; its ["last_monthly_restart"] is the date the
    manager holds then, and its ["manager_pid"] is the pid of the
    manager. *)
Theorem pass_writes_final_state (st : State) :
  disk_ok (os st) = true ->
  let st' := monitor_iteration st in
  exists d,
    status_file (os st') = Some d /\
    Forall2 shows (services st') (sd_services d) /\
    sd_last_monthly_restart d = last_monthly_restart st' /\
    manager_pid d = getpid (os st').
Proof.
  intros Hd. cbv zeta.
  exists (status_data (monitor_iteration st)).
  split; [exact (pass_status_file st Hd)|].
  split; [apply status_data_shows|].
  split; reflexivity.
Qed.

Lemma pass_writes_final_state_witness :
  let st' := monitor_iteration
               (execute Scenario.crash_three_times Sample.fresh) in
  exists d,
    status_file (os st') = Some d /\
    Forall2 shows (services st') (sd_services d) /\
    sd_last_monthly_restart d = last_monthly_restart st' /\
    manager_pid d = getpid (os st').
Proof.
  apply (pass_writes_final_state
           (execute Scenario.crash_three_times Sample.fresh)).
  vm_compute. reflexivity.
Defined.

(** ** How many processes are launched *)

Lemma running_reset_id (s : Service) :
  status s = running -> consecutive_failures s = 0%nat ->
  s |> set_status running |> set_consecutive_failures 0%nat = s.
Proof. intros H1 H2. destruct s; simpl in *; subst; reflexivity. Qed.

(** X13.  [start_service] called a second time right after a call that
    launched the service (child pid not 0, process alive after the five
    seconds) launches nothing: it returns [True] again and the record, the
    world and the restart count stay as the first call left them. *)
Theorem start_twice_launches_once (st : State) (id : string) (s : Service)
  (p : Z) :
  lookup id (services st) = Some s ->
  already_running (os st) s = false ->
  path_exists (os st) (script_path s) = true ->
  launch (os st) (script_path s) = StillRunning p ->
  p <> 0 ->
  exists st1 st2 s1,
    start_service id st = Some (true, st1) /\
    start_service id st1 = Some (true, st2) /\
    lookup id (services st1) = Some s1 /\
    services st2 = services st1 /\ os st2 = os st1 /\
    restart_count s1 = (restart_count s + 1)%nat /\
    popens (trace st1) = (popens (trace st) + 1)%nat /\
    popens (trace st2) = popens (trace st1).
Proof.
  intros Hl Hr He Hp Hp0.
  unfold start_service at 1.
  rewrite (call_some _ _ _ _ Hl), (start_launch _ _ Hr He). cbv zeta.
  rewrite Hp. cbn [ret svc world evs].
  set (s1 := s |> set_process (Some {| popen_pid := p |})
               |> set_pid (Some p) |> set_status running
               |> incr_restart_count |> set_last_restart (Some (now (os st)))
               |> set_consecutive_failures 0%nat).
  set (st1 := {| services := update id s1 (services st);
                 running_flag := running_flag st;
                 last_monthly_restart := last_monthly_restart st;
                 os := set_proc p None (os st);
                 trace := trace st ++ _ |}).
  assert (Hl1 : lookup id (services st1) = Some s1)
    by (apply lookup_update_same; congruence).
  assert (Hrun : Body.start_service (os st1) s1 =
                 {| ret := true; svc := s1; world := os st1;
                    evs := [EvLog INFO (MsgAlreadyRunning (name s1) p)] |}).
  { unfold Body.start_service.
    assert (Ha : truthy_pid (pid s1)
                 && is_process_running (os st1) (pid_or_zero (pid s1))
                 = true).
    { cbn [pid s1 set_consecutive_failures set_last_restart
             incr_restart_count set_restart_count set_status set_pid
             truthy_pid pid_or_zero].
      unfold is_process_running. cbn [os st1 pid_running set_proc].
      rewrite Z.eqb_refl.
      destruct (Z.eqb_spec p 0); [contradiction | reflexivity]. }
    rewrite Ha. rewrite running_reset_id by reflexivity. reflexivity. }
  exists st1, (called (start_service id st1) st1), s1.
  unfold start_service. rewrite (call_some _ _ _ _ Hl1), Hrun.
  cbn [ret svc world evs called].
  split; [reflexivity|]. split; [reflexivity|]. split; [exact Hl1|].
  cbn [services os trace].
  split; [apply update_same; exact Hl1|].
  split; [reflexivity|]. split; [reflexivity|].
  split.
  - unfold st1. cbn [trace]. rewrite popens_app. reflexivity.
  - rewrite popens_app. simpl. lia.
Qed.

Lemma start_twice_launches_once_witness :
  exists st1 st2 s1,
    start_service "web_proxy" Sample.fresh = Some (true, st1) /\
    start_service "web_proxy" st1 = Some (true, st2) /\
    lookup "web_proxy" (services st1) = Some s1 /\
    services st2 = services st1 /\ os st2 = os st1 /\
    restart_count s1 = 1%nat /\
    popens (trace st1) = 1%nat /\
    popens (trace st2) = popens (trace st1).
Proof.
  exact (start_twice_launches_once Sample.fresh "web_proxy"
           (new_service "Web Proxy (Port 80)" "port80_proxy.py"
              "/srv/DBSBMWEB" "/srv/DBSBMWEB")
           4244 eq_refl eq_refl eq_refl eq_refl ltac:(discriminate)).
Defined.

(** X14.  [start_all_services] launches each script at most as many times
    as there are services configured with it: one launch at most for each
    service, and it is the script of that service that is launched; a
    script no service is configured with is not launched.  It sends no
    stop or kill signal. *)
Theorem start_all_launch_bound (st : State) (path : string) :
  (launches_of path (trace (snd (start_all_services st)))
   <= launches_of path (trace st) + configured_with path (services st))%nat /\
  signals (trace (snd (start_all_services st))) = signals (trace st).
Proof.
  split; [|apply start_all_no_signal].
  pose proof (loop_launches path Body.start_service (services st) (os st)
                (start_launches path)) as Hb.
  unfold start_all_services. cbv zeta. cbn [snd].
  match goal with |- context [if ?c then _ else _] => destruct c end.
  - cbn [trace log emit]. rewrite launches_of_app.
    rewrite !launches_of_log_if.
    cbn [trace log emit]. rewrite launches_of_app, launches_of_update_status.
    cbn [trace log emit loop_state services os].
    rewrite !launches_of_app. simpl. lia.
  - rewrite launches_of_update_status.
    cbn [trace log emit loop_state services os].
    rewrite !launches_of_app. simpl. lia.
Qed.

(** X15.  A pass of the monitoring loop in which the weekly job is not
    pending launches each script at most as many times as there are
    services configured with it (one restart at most for each service, of
    the script of that service) and sends no stop or kill signal: the loop
    restarts, it never stops a process. *)
Theorem pass_launch_bound (st : State) (path : string) :
  job_due (os st) = false ->
  (launches_of path (trace (monitor_iteration st))
   <= launches_of path (trace st) + configured_with path (services st))%nat /\
  signals (trace (monitor_iteration st)) = signals (trace st).
Proof.
  intros Hj.
  pose proof (loop_launches path Body.monitor_service (services st) (os st)
                (monitor_launches path)) as Hb.
  pose proof (loop_no_signal Body.monitor_service (services st) (os st)
                (fun w s => proj2 (monitor_launch_bound w s))) as Hg.
  unfold monitor_iteration, run_pending. rewrite Hj. cbv zeta.
  cbn [trace sleep emit].
  rewrite launches_of_app, signals_app, launches_of_update_status,
    signals_update_status.
  cbn [trace loop_state].
  rewrite launches_of_app, signals_app, Hg. simpl. lia.
Qed.

Lemma pass_launch_bound_witness :
  (launches_of "/srv/DBSBM/bot/main.py"
     (trace (monitor_iteration
               (execute [AStartAll; AEnv (Sample.child_exits 4242 1)]
                  Sample.fresh)))
   <= launches_of "/srv/DBSBM/bot/main.py"
        (trace (execute [AStartAll; AEnv (Sample.child_exits 4242 1)]
                  Sample.fresh))
      + configured_with "/srv/DBSBM/bot/main.py"
          (services (execute [AStartAll; AEnv (Sample.child_exits 4242 1)]
                       Sample.fresh)))%nat /\
  configured_with "/srv/DBSBM/bot/main.py"
    (services (execute [AStartAll; AEnv (Sample.child_exits 4242 1)]
                 Sample.fresh)) = 1%nat.
Proof.
  split; [|vm_compute; reflexivity].
  apply (pass_launch_bound
           (execute [AStartAll; AEnv (Sample.child_exits 4242 1)]
              Sample.fresh)
           "/srv/DBSBM/bot/main.py" eq_refl).
Defined.
